(** * Run report of an agent response: [format_agent_response]

    A shallow embedding of
    [packages/langchain_2ly/examples/format_response.py].
    The Python function reads a completed agent run (a dict whose
    ['messages'] entry is a sequence of message objects), extracts the final
    answer, the number of tool calls and the token usage, and prints a
    coloured transcript.  Messages are duck-typed: the code probes them with
    [hasattr], tests values for truthiness and calls [len], [split], [strip]
    and [get] on whatever it finds, so the embedding keeps Python values
    dynamic and threads the exceptions those calls can raise. *)

From Stdlib Require Import String Ascii DecimalString.
From Stdlib Require Import List ZArith NArith Bool Lia Permutation.
Import ListNotations.

Set Warnings "-register-all".

Open Scope Z_scope.

(** ** Python values *)

(** A Python [str] is a sequence of Unicode code points. *)
Definition pystr := list N.

(** An ASCII literal of the source, as a [str]. *)
Definition lit (s : string) : pystr :=
  map N_of_ascii (list_ascii_of_string s).

(** The values the function can meet in a message attribute or in a usage
    dict: [None], integers, strings, lists and dicts with string keys. *)
Inductive pyval : Type :=
| PyNone
| PyInt (n : Z)
| PyStr (s : pystr)
| PyList (items : list pyval)
| PyDict (entries : list (pystr * pyval)).

Inductive exn : Type :=
| TypeError
| AttributeError.

Inductive result (A : Type) : Type :=
| Ok (a : A)
| Raise (e : exn).

Arguments Ok {A} a.
Arguments Raise {A} e.

Definition bind {A B} (r : result A) (k : A -> result B) : result B :=
  match r with
  | Ok a => k a
  | Raise e => Raise e
  end.

Notation "x <- c ;; k" := (bind c (fun x => k))
  (at level 61, c at next level, right associativity).

(** [bool(v)]: [None], [0] and empty containers are falsy. *)
Definition truthy (v : pyval) : bool :=
  match v with
  | PyNone => false
  | PyInt n => negb (n =? 0)
  | PyStr s => negb (Nat.eqb (length s) 0)
  | PyList items => negb (Nat.eqb (length items) 0)
  | PyDict entries => negb (Nat.eqb (length entries) 0)
  end.

(** [v is None] *)
Definition is_None (v : pyval) : bool :=
  match v with
  | PyNone => true
  | _ => false
  end.

(** [len(v)]: defined on strings, lists and dicts; a [TypeError] otherwise. *)
Definition py_len (v : pyval) : result Z :=
  match v with
  | PyStr s => Ok (Z.of_nat (length s))
  | PyList items => Ok (Z.of_nat (length items))
  | PyDict entries => Ok (Z.of_nat (length entries))
  | PyNone | PyInt _ => Raise TypeError
  end.

(** ** Messages and the run

    A message is an object; each of the three attributes the function probes
    is either missing ([hasattr] is [False], here [None] of [option]) or
    holds a Python value. *)
Record message : Type := mkMessage {
  content : option pyval;
  tool_calls : option pyval;
  usage_metadata : option pyval
}.

(** The run: a dict of which only the ['messages'] entry is read. *)
Record response : Type := mkResponse {
  messages_entry : option (list message)
}.

(** [response.get('messages', [])] *)
Definition get_messages (r : response) : list message :=
  match messages_entry r with
  | Some ms => ms
  | None => []
  end.

(** The locals of the function once both loops have run (line 32). *)
Record report : Type := mkReport {
  final_answer : pyval;
  tool_calls_count : Z;
  token_usage : pyval;
  message_count : Z
}.

(** ** The two loops *)

(** Lines 21-24, over [reversed(messages)]: the first message whose
    [content] attribute exists and is truthy, while [final_answer] is still
    [None], sets [final_answer] and breaks. *)
Fixpoint final_answer_loop (ms : list message) (answer : pyval) : pyval :=
  match ms with
  | [] => answer
  | m :: rest =>
      match content m with
      | Some c =>
          if truthy c && is_None answer then c
          else final_answer_loop rest answer
      | None => final_answer_loop rest answer
      end
  end.

(** Lines 28-29: [tool_calls_count += len(message.tool_calls)] when the
    attribute exists and is truthy. *)
Definition add_tool_calls (m : message) (count : Z) : result Z :=
  match tool_calls m with
  | Some tc =>
      if truthy tc then n <- py_len tc ;; Ok (count + n) else Ok count
  | None => Ok count
  end.

(** Lines 30-31: [token_usage = message.usage_metadata] when the attribute
    exists, whatever its value. *)
Definition set_token_usage (m : message) (usage : pyval) : pyval :=
  match usage_metadata m with
  | Some u => u
  | None => usage
  end.

(** Lines 27-31, over [messages] in order. *)
Fixpoint count_usage_loop (ms : list message) (count : Z) (usage : pyval)
  : result (Z * pyval) :=
  match ms with
  | [] => Ok (count, usage)
  | m :: rest =>
      count' <- add_tool_calls m count ;;
      count_usage_loop rest count' (set_token_usage m usage)
  end.

(** Lines 15-31. *)
Definition build_report (r : response) : result report :=
  let messages := get_messages r in
  let answer := final_answer_loop (rev messages) PyNone in
  cu <- count_usage_loop messages 0 PyNone ;;
  Ok (mkReport answer (fst cu) (snd cu) (Z.of_nat (length messages))).

(** ** String operations used by the renderer *)

(** [ch.isspace()], the characters [str.strip()] removes: the ASCII
    whitespace and separators, NEL, NBSP and the Unicode space separators. *)
Definition isspace (c : N) : bool :=
  (((9 <=? c) && (c <=? 13)) || ((28 <=? c) && (c <=? 32))
   || (c =? 133) || (c =? 160) || (c =? 5760)
   || ((8192 <=? c) && (c <=? 8202))
   || (c =? 8232) || (c =? 8233) || (c =? 8239) || (c =? 8287)
   || (c =? 12288))%N.

Fixpoint lstrip (s : pystr) : pystr :=
  match s with
  | [] => []
  | c :: rest => if isspace c then lstrip rest else s
  end.

Definition rstrip (s : pystr) : pystr := rev (lstrip (rev s)).

(** [s.strip()] *)
Definition strip (s : pystr) : pystr := rstrip (lstrip s).

(** [s.split('\n')]: the pieces between line feeds, always at least one. *)
Fixpoint split_lines (s : pystr) : list pystr :=
  match s with
  | [] => [[]]
  | c :: rest =>
      if (c =? 10)%N then [] :: split_lines rest
      else match split_lines rest with
           | line :: lines => (c :: line) :: lines
           | [] => [[c]]
           end
  end.

(** [v.split('\n')]: only a [str] has the method. *)
Definition py_split (v : pyval) : result (list pystr) :=
  match v with
  | PyStr s => Ok (split_lines s)
  | _ => Raise AttributeError
  end.

Definition pystr_eqb (a b : pystr) : bool :=
  if list_eq_dec N.eq_dec a b then true else false.

(** Lookup in the entries of a dict (keys are unique in a dict; the first
    entry for a key is the one found). *)
Fixpoint dict_get (entries : list (pystr * pyval)) (key : pystr)
  (default : pyval) : pyval :=
  match entries with
  | [] => default
  | (k, v) :: rest => if pystr_eqb k key then v else dict_get rest key default
  end.

(** [v.get(key, default)]: only a dict has the method. *)
Definition py_get (v : pyval) (key : pystr) (default : pyval) : result pyval :=
  match v with
  | PyDict entries => Ok (dict_get entries key default)
  | _ => Raise AttributeError
  end.

(** [str(n)] for an integer. *)
Definition str_of_int (n : Z) : pystr :=
  lit (NilZero.string_of_int (Z.to_int n)).

(** ** Standard output

    A computation that prints: the texts it handed to [print], in order
    (each is written followed by a line feed), and how it ended.  An
    exception keeps what was printed before it. *)
Definition io (A : Type) : Type := (list pystr * result A)%type.

Definition io_ret {A} (a : A) : io A := ([], Ok a).

Definition io_bind {A B} (c : io A) (k : A -> io B) : io B :=
  match snd c with
  | Ok a => (fst c ++ fst (k a), snd (k a))
  | Raise e => (fst c, Raise e)
  end.

Definition lift {A} (r : result A) : io A := ([], r).

Definition print (text : pystr) : io unit := ([text], Ok tt).

Notation "x <~ c ;; k" := (io_bind c (fun x => k))
  (at level 61, c at next level, right associativity).
Notation "c >> k" := (io_bind c (fun _ => k))
  (at level 61, right associativity).

(** The characters written to the stream by a sequence of [print] calls. *)
Definition stdout_text (out : list pystr) : pystr :=
  concat (map (fun text => text ++ [10%N]) out).

(** ANSI colour codes, lines 7-12. *)
Definition ESC : pystr := [27%N].
Definition BLUE : pystr := ESC ++ lit "[94m".
Definition RED : pystr := ESC ++ lit "[91m".
Definition PURPLE : pystr := ESC ++ lit "[95m".
Definition DARK_GREY : pystr := ESC ++ lit "[90m".
Definition BOLD : pystr := ESC ++ lit "[1m".
Definition RESET : pystr := ESC ++ lit "[0m".

(** ['='*80] *)
Definition rule : pystr := repeat 61%N 80.

(** The three-space indentation and the bullet of the metadata lines. *)
Definition indent : pystr := lit "   ".
Definition bullet : pystr := indent ++ [8226%N] ++ lit " ".

(** The default of the three [get] calls. *)
Definition NA : pyval := PyStr (lit "N/A").

(** [f"{DARK_GREY}   {text}{RESET}"], lines 45 and 54. *)
Definition grey_indented (text : pystr) : pystr :=
  DARK_GREY ++ indent ++ text ++ RESET.

(** [f"{PURPLE}   <bullet> <label>{RESET} {value}"], lines 63-70. *)
Definition metadata_line (label : string) (value : pystr) : pystr :=
  PURPLE ++ bullet ++ lit label ++ RESET ++ lit " " ++ value.

(** ** The renderer, lines 33-72 *)

Section Render.

(** [repr] of a list or a dict.  It depends on Python's Unicode tables and
    is left open; only a usage entry that is itself a container reaches it. *)
Variable py_repr : pyval -> pystr.

(** The text an f-string substitutes for [{v}]. *)
Definition py_str (v : pyval) : pystr :=
  match v with
  | PyNone => lit "None"
  | PyInt n => str_of_int n
  | PyStr s => s
  | PyList _ | PyDict _ => py_repr v
  end.

(** Lines 52-56: one [print] per line of the answer. *)
Definition print_answer_line (line : pystr) : io unit :=
  match strip line with
  | [] => print []
  | _ :: _ => print (grey_indented (strip line))
  end.

Fixpoint print_answer_lines (lines : list pystr) : io unit :=
  match lines with
  | [] => io_ret tt
  | line :: rest => print_answer_line line >> print_answer_lines rest
  end.

(** Lines 49-58. *)
Definition print_answer (answer : pyval) : io unit :=
  if truthy answer then
    lines <~ lift (py_split answer) ;;
    print_answer_lines lines
  else
    print (RED ++ lit "   No response found" ++ RESET).

(** One of lines 63-65. *)
Definition print_token_line (label : string) (key : string) (usage : pyval)
  : io unit :=
  v <~ lift (py_get usage (lit key) NA) ;;
  print (metadata_line label (py_str v)).

(** Lines 62-65. *)
Definition print_token_usage (usage : pyval) : io unit :=
  if truthy usage then
    print_token_line "Input tokens:" "input_tokens" usage >>
    print_token_line "Output tokens:" "output_tokens" usage >>
    print_token_line "Total tokens:" "total_tokens" usage
  else
    io_ret tt.

(** Lines 67-68. *)
Definition print_tool_calls (count : Z) : io unit :=
  if 0 <? count then
    print (metadata_line "Tool calls made:" (str_of_int count))
  else
    io_ret tt.

(** Lines 33-48: banner, timestamp, model, question and the heading of the
    answer; [timestamp] is the formatted wall-clock time of line 39. *)
Definition print_header (timestamp user_question model_name : pystr)
  : io unit :=
  print ([10%N] ++ BLUE ++ rule ++ RESET) >>
  print (BOLD ++ BLUE ++ lit "  " ++ [129302%N] ++ lit " 2ly Agent Response"
         ++ RESET) >>
  print (BLUE ++ rule ++ RESET) >>
  print (PURPLE ++ [128197%N] ++ lit " Timestamp:" ++ RESET ++ lit " "
         ++ timestamp) >>
  print (PURPLE ++ [128295%N] ++ lit " Model:" ++ RESET ++ lit " "
         ++ model_name) >>
  print ([10%N] ++ BOLD ++ BLUE ++ [10067%N] ++ lit " Question:" ++ RESET) >>
  print (grey_indented user_question) >>
  print ([10%N] ++ BOLD ++ BLUE ++ [128172%N] ++ lit " Answer:" ++ RESET).

(** Lines 60-72: the metadata section and the closing rule. *)
Definition print_metadata (rep : report) : io unit :=
  print ([10%N] ++ BOLD ++ BLUE ++ [128202%N] ++ lit " Metadata:" ++ RESET) >>
  print_token_usage (token_usage rep) >>
  print_tool_calls (tool_calls_count rep) >>
  print (metadata_line "Total messages:" (str_of_int (message_count rep))) >>
  print (BLUE ++ rule ++ RESET ++ [10%N]).

(** Lines 33-72. *)
Definition render_report (timestamp : pystr) (rep : report)
  (user_question model_name : pystr) : io unit :=
  print_header timestamp user_question model_name >>
  print_answer (final_answer rep) >>
  print_metadata rep.

(** The whole function: build the report, then print it. *)
Definition format_agent_response (timestamp : pystr) (r : response)
  (user_question model_name : pystr) : io unit :=
  rep <~ lift (build_report r) ;;
  render_report timestamp rep user_question model_name.

End Render.

(** ** The data model of a run

    The shapes the three attributes take in a run: [content] is missing,
    [None] or text; [tool_calls] is missing, [None] or a list; and
    [usage_metadata] is missing, [None] or a dict. *)
Definition content_ok (m : message) : bool :=
  match content m with
  | None | Some PyNone | Some (PyStr _) => true
  | _ => false
  end.

Definition tool_calls_ok (m : message) : bool :=
  match tool_calls m with
  | None | Some PyNone | Some (PyList _) => true
  | _ => false
  end.

Definition usage_ok (m : message) : bool :=
  match usage_metadata m with
  | None | Some PyNone | Some (PyDict _) => true
  | _ => false
  end.

Definition well_shaped (m : message) : bool :=
  content_ok m && tool_calls_ok m && usage_ok m.

(** A message has content when the attribute exists and is truthy. *)
Definition has_content (m : message) : bool :=
  match content m with
  | Some c => truthy c
  | None => false
  end.

(** A message carries a usage-metadata record when the attribute exists
    and holds something other than [None]. *)
Definition carries_usage_record (m : message) : bool :=
  match usage_metadata m with
  | Some u => negb (is_None u)
  | None => false
  end.

(** The tool calls of a message, an absent list read as the empty one. *)
Definition tool_call_list (m : message) : list pyval :=
  match tool_calls m with
  | Some (PyList items) => items
  | _ => []
  end.

(** The sum the report's count is compared with: the lengths of the
    messages' tool-call lists, added up. *)
Definition spec_tool_call_total (ms : list message) : Z :=
  fold_right Z.add 0 (map (fun m => Z.of_nat (length (tool_call_list m))) ms).

(** [needle in text] *)
Fixpoint starts_with (needle text : pystr) : bool :=
  match needle, text with
  | [], _ => true
  | _ :: _, [] => false
  | a :: needle', b :: text' => (a =? b)%N && starts_with needle' text'
  end.

Fixpoint contains (needle text : pystr) : bool :=
  starts_with needle text ||
  match text with
  | [] => false
  | _ :: text' => contains needle text'
  end.

(** The lines of the stream: what stands between its line feeds. *)
Definition stdout_lines (out : list pystr) : list pystr :=
  split_lines (stdout_text out).

(** The pieces of a text put back together with line feeds between them. *)
Fixpoint join_lines (lines : list pystr) : pystr :=
  match lines with
  | [] => []
  | [line] => line
  | line :: rest => line ++ [10%N] ++ join_lines rest
  end.

Definition all_space (s : pystr) : Prop := Forall (fun c => isspace c = true) s.

(** What the answer section shows for one line of the answer: nothing for a
    blank line, and otherwise the line without its leading and trailing
    whitespace, indented. *)
Definition shown_as (line text : pystr) : Prop :=
  (all_space line /\ text = [])
  \/ (exists ws1 core ws2 first last,
        line = ws1 ++ core ++ ws2
        /\ all_space ws1 /\ all_space ws2
        /\ hd_error core = Some first /\ isspace first = false
        /\ hd_error (rev core) = Some last /\ isspace last = false
        /\ text = grey_indented core).

(** A report whose answer is [None] or text and whose usage is [None] or a
    dict: what [build_report] yields on a run of the data model. *)
Definition report_ok (rep : report) : bool :=
  match final_answer rep, token_usage rep with
  | (PyNone | PyStr _), (PyNone | PyDict _) => true
  | _, _ => false
  end.

(** The keys of a dict. *)
Definition dict_keys (entries : list (pystr * pyval)) : list pystr :=
  map fst entries.

(** ** Sample runs *)

(** The run of the scenario where a later message exposes a null usage
    field: the first message carries a usage record, the second has
    [usage_metadata = None]. *)
Definition usage_5_0_5 : pyval :=
  PyDict [(lit "input_tokens", PyInt 5); (lit "output_tokens", PyInt 0);
          (lit "total_tokens", PyInt 5)].

Definition usage_5_3_8 : pyval :=
  PyDict [(lit "input_tokens", PyInt 5); (lit "output_tokens", PyInt 3);
          (lit "total_tokens", PyInt 8)].

Definition run_null_usage_last : response :=
  mkResponse (Some
    [mkMessage (Some (PyStr (lit "thinking..."))) None (Some usage_5_0_5);
     mkMessage (Some (PyStr (lit "done"))) None (Some PyNone)]).

(** A run whose only usage-bearing message holds an empty usage record. *)
Definition run_empty_usage : response :=
  mkResponse (Some
    [mkMessage (Some (PyStr (lit "done"))) None (Some (PyDict []))]).

(** A two-line question. *)
Definition question_two_lines : pystr := lit "a" ++ [10%N] ++ lit "b".

(** A fixed time stamp and model name for the sample renderings. *)
Definition sample_timestamp : pystr := lit "2025-01-01 00:00:00".
Definition sample_model : pystr := lit "gpt-4o-mini".

(** [repr] of containers is never reached in the sample renderings. *)
Definition no_repr (v : pyval) : pystr := [].

(** A tool-call message followed by the answer ["42"]. *)
Definition tool_call_t1 : pyval :=
  PyDict [(lit "name", PyStr (lit "list_allowed_directories"))].

Definition msg_tool_call : message :=
  mkMessage (Some PyNone) (Some (PyList [tool_call_t1])) None.

Definition msg_answer_42 : message :=
  mkMessage (Some (PyStr (lit "42"))) (Some (PyList [])) None.

Definition run_tool_then_answer : response :=
  mkResponse (Some [msg_tool_call; msg_answer_42]).

(** The answer ["42"] followed by a message without content. *)
Definition run_answer_then_tool : response :=
  mkResponse (Some [msg_answer_42; msg_tool_call]).

(** Two messages that both carry a usage record. *)
Definition msg_thinking : message :=
  mkMessage (Some (PyStr (lit "thinking..."))) None (Some usage_5_0_5).

Definition msg_done : message :=
  mkMessage (Some (PyStr (lit "done"))) None (Some usage_5_3_8).

Definition run_two_usages : response :=
  mkResponse (Some [msg_thinking; msg_done]).

(** A usage record without the ['total_tokens'] entry. *)
Definition usage_partial : pyval :=
  PyDict [(lit "input_tokens", PyInt 7); (lit "output_tokens", PyInt 2)].

(** An answer of three lines: text with spaces around it, a blank line and
    a line after a tab. *)
Definition answer_three_lines : pystr :=
  lit "  done " ++ [10%N] ++ lit " " ++ [10%N; 9%N] ++ lit "bye".

(** Reports to render: one with a three-line answer, one without answer
    but with tool calls and a partial usage record. *)
Definition report_three_lines : report :=
  mkReport (PyStr answer_three_lines) 0 PyNone 1.

Definition report_partial_usage : report :=
  mkReport PyNone 2 usage_partial 3.

(** ** Predicates on messages and values used by the further properties *)

(** The [tool_calls] attribute exists and is truthy: line 28 holds. *)
Definition has_tool_calls (m : message) : bool :=
  match tool_calls m with
  | Some tc => truthy tc
  | None => false
  end.

(** The [tool_calls] attribute is truthy and has no length: a non-zero
    integer, the one value of [pyval] on which [len] is reached and raises. *)
Definition tool_calls_unsized (m : message) : bool :=
  match tool_calls m with
  | Some (PyInt n) => negb (n =? 0)
  | _ => false
  end.

(** [hasattr(message, 'usage_metadata')] *)
Definition exposes_usage (m : message) : bool :=
  match usage_metadata m with
  | Some _ => true
  | None => false
  end.

(** The answer section can print the value: it is falsy or a [str]. *)
Definition answer_printable (a : pyval) : bool :=
  negb (truthy a) || match a with PyStr _ => true | _ => false end.

(** The token lines can print the value: it is falsy or a dict. *)
Definition usage_printable (u : pyval) : bool :=
  negb (truthy u) || match u with PyDict _ => true | _ => false end.

(** ** Sample runs outside the data model *)

(** A message whose [tool_calls] is the integer 3. *)
Definition run_unsized_tool_calls : response :=
  mkResponse (Some [msg_answer_42; mkMessage None (Some (PyInt 3)) None]).

(** A message whose content is a list of blocks. *)
Definition run_list_content : response :=
  mkResponse (Some [mkMessage (Some (PyList [PyStr (lit "hi")])) None None]).

(** The answer ["42"] with no other attribute, after an empty message. *)
Definition run_answer_only : response :=
  mkResponse (Some [mkMessage (Some PyNone) None (Some usage_5_0_5);
                    mkMessage (Some (PyStr (lit "42"))) None None]).

Definition sample_timestamp_later : pystr := lit "2025-01-01 00:00:01".

(** The closing rule, line 72. *)
Definition closing_rule : pystr := BLUE ++ rule ++ RESET ++ [10%N].

(** * Properties *)

(** ** The report and the loops that compute it *)

Lemma build_report_fields (r : response) (rep : report) :
  build_report r = Ok rep ->
  final_answer rep = final_answer_loop (rev (get_messages r)) PyNone
  /\ count_usage_loop (get_messages r) 0 PyNone
     = Ok (tool_calls_count rep, token_usage rep)
  /\ message_count rep = Z.of_nat (length (get_messages r)).
Proof.
  unfold build_report.
  destruct (count_usage_loop (get_messages r) 0 PyNone) as [[c u]|e];
    simpl; intros H; inversion H; subst; simpl; auto.
Qed.

(** Messages without content are skipped by the reverse scan. *)
Lemma final_answer_loop_skip (xs ys : list message) (a : pyval) :
  Forall (fun m => has_content m = false) xs ->
  final_answer_loop (xs ++ ys) a = final_answer_loop ys a.
Proof.
  induction 1 as [|m xs Hm _ IH]; simpl; auto.
  unfold has_content in Hm.
  destruct (content m) as [c|]; auto.
  rewrite Hm. simpl. exact IH.
Qed.

(** The scan stops at the first message that has content. *)
Lemma final_answer_loop_hit (m : message) (rest : list message) (c : pyval) :
  content m = Some c -> truthy c = true ->
  final_answer_loop (m :: rest) PyNone = c.
Proof.
  intros Hc Ht. simpl. rewrite Hc, Ht. reflexivity.
Qed.

Lemma final_answer_loop_none (xs : list message) :
  Forall (fun m => has_content m = false) xs ->
  final_answer_loop xs PyNone = PyNone.
Proof.
  intros H. rewrite <- (app_nil_r xs).
  rewrite final_answer_loop_skip; auto.
Qed.

(** A list cut at index [k]. *)
Lemma nth_error_cut {A} (l : list A) (k : nat) (x : A) :
  nth_error l k = Some x ->
  exists pre post, l = pre ++ x :: post /\ length pre = k.
Proof.
  intros H. destruct (nth_error_split l k H) as (pre & post & -> & Hl).
  eauto.
Qed.

Lemma Forall_after {A} (P : A -> Prop) (pre post : list A) (x : A) :
  (forall j y, (length pre < j)%nat ->
               nth_error (pre ++ x :: post) j = Some y -> P y) ->
  Forall P post.
Proof.
  intros H. apply Forall_forall. intros y Hy.
  destruct (In_nth_error _ _ Hy) as [i Hi].
  apply (H (length pre + S i)%nat); [lia|].
  rewrite nth_error_app2 by lia.
  replace (length pre + S i - length pre)%nat with (S i) by lia.
  exact Hi.
Qed.

Lemma final_answer_at_last_content (pre post : list message) (m : message)
  (c : pyval) :
  content m = Some c -> truthy c = true ->
  Forall (fun m' => has_content m' = false) post ->
  final_answer_loop (rev (pre ++ m :: post)) PyNone = c.
Proof.
  intros Hc Ht Hpost.
  rewrite rev_app_distr. simpl. rewrite <- app_assoc. simpl.
  rewrite final_answer_loop_skip.
  - apply final_answer_loop_hit; assumption.
  - apply Forall_rev. exact Hpost.
Qed.

(** C1. For every run that yields a report, [final_answer] is the content
    of the highest-indexed message whose content is non-empty (truthy);
    the reverse scan returns at its first hit whatever follows it in the
    scan; trailing messages with empty or absent content do not change the
    answer; and the answer is [None] when no message has content. *)
Theorem final_answer_is_last_content (r : response) (rep : report)
  (Hrep : build_report r = Ok rep) :
  final_answer rep = final_answer_loop (rev (get_messages r)) PyNone
  /\ (forall m rest c, content m = Some c -> truthy c = true ->
        final_answer_loop (m :: rest) PyNone = c)
  /\ (forall k m c,
        nth_error (get_messages r) k = Some m ->
        content m = Some c -> truthy c = true ->
        (forall j m', (k < j)%nat -> nth_error (get_messages r) j = Some m' ->
                      has_content m' = false) ->
        final_answer rep = c)
  /\ (forall r' rep' tail,
        build_report r' = Ok rep' ->
        get_messages r' = get_messages r ++ tail ->
        Forall (fun m => has_content m = false) tail ->
        final_answer rep' = final_answer rep)
  /\ (Forall (fun m => has_content m = false) (get_messages r) ->
      final_answer rep = PyNone).
Proof.
  destruct (build_report_fields r rep Hrep) as (Hfa & _ & _).
  split; [exact Hfa|].
  split; [exact final_answer_loop_hit|].
  split; [|split].
  - intros k m c Hk Hc Ht Hafter. rewrite Hfa.
    destruct (nth_error_cut _ _ _ Hk) as (pre & post & Heq & Hlen).
    rewrite Heq in *. subst k.
    apply final_answer_at_last_content; auto.
    apply (Forall_after _ pre post m). exact Hafter.
  - intros r' rep' tail Hrep' Hms Htail.
    destruct (build_report_fields r' rep' Hrep') as (Hfa' & _ & _).
    rewrite Hfa', Hfa, Hms, rev_app_distr.
    apply final_answer_loop_skip. apply Forall_rev. exact Htail.
  - intros Hall. rewrite Hfa.
    apply final_answer_loop_none. apply Forall_rev. exact Hall.
Qed.

(** The usage the forward scan ends with: each message that exposes the
    attribute overwrites the accumulator. *)
Lemma count_usage_loop_usage (ms : list message) :
  forall c u c' u',
    count_usage_loop ms c u = Ok (c', u') ->
    u' = fold_left (fun acc m => set_token_usage m acc) ms u.
Proof.
  induction ms as [|m ms IH]; simpl; intros c u c' u' H.
  - inversion H. reflexivity.
  - destruct (add_tool_calls m c) as [c1|e]; simpl in H; [|discriminate].
    apply (IH _ _ _ _ H).
Qed.

Lemma usage_fold_unset (ms : list message) (u : pyval) :
  Forall (fun m => usage_metadata m = None) ms ->
  fold_left (fun acc m => set_token_usage m acc) ms u = u.
Proof.
  intros H. revert u.
  induction H as [|m ms Hm _ IH]; simpl; intros u; auto.
  unfold set_token_usage at 2. rewrite Hm. apply IH.
Qed.

Lemma usage_fold_last (pre post : list message) (m : message) (u v : pyval) :
  usage_metadata m = Some v ->
  Forall (fun m' => usage_metadata m' = None) post ->
  fold_left (fun acc m => set_token_usage m acc) (pre ++ m :: post) u = v.
Proof.
  intros Hm Hpost. rewrite fold_left_app. simpl.
  rewrite usage_fold_unset by exact Hpost.
  unfold set_token_usage. rewrite Hm. reflexivity.
Qed.

Lemma report_usage_fold (r : response) (rep : report) :
  build_report r = Ok rep ->
  token_usage rep
  = fold_left (fun acc m => set_token_usage m acc) (get_messages r) PyNone.
Proof.
  intros Hrep. destruct (build_report_fields r rep Hrep) as (_ & Hcu & _).
  apply (count_usage_loop_usage _ _ _ _ _ Hcu).
Qed.

Lemma report_usage_last (r : response) (rep : report) (k : nat) (m : message)
  (v : pyval) :
  build_report r = Ok rep ->
  nth_error (get_messages r) k = Some m ->
  usage_metadata m = Some v ->
  (forall j m', (k < j)%nat -> nth_error (get_messages r) j = Some m' ->
                usage_metadata m' = None) ->
  token_usage rep = v.
Proof.
  intros Hrep Hk Hm Hafter.
  rewrite (report_usage_fold r rep Hrep).
  destruct (nth_error_cut _ _ _ Hk) as (pre & post & Heq & Hlen).
  rewrite Heq in *. subst k.
  apply usage_fold_last; auto.
  apply (Forall_after _ pre post m). exact Hafter.
Qed.

(** C2, the claim as stated fails.  In [run_null_usage_last] exactly one
    message carries a usage-metadata record (message 0; message 1 exposes
    the field but holds [None]), and the report's usage is not that record:
    it is [None]. *)
Lemma usage_not_last_record_when_null_follows :
  exists rep m0 m1,
    build_report run_null_usage_last = Ok rep
    /\ get_messages run_null_usage_last = [m0; m1]
    /\ carries_usage_record m0 = true
    /\ usage_metadata m0 = Some usage_5_0_5
    /\ carries_usage_record m1 = false
    /\ usage_metadata m1 = Some PyNone
    /\ token_usage rep = PyNone
    /\ token_usage rep <> usage_5_0_5.
Proof.
  eexists. eexists. eexists.
  split; [reflexivity|].
  split; [reflexivity|].
  repeat (split; [reflexivity|]).
  simpl. discriminate.
Qed.

(** C2, amended.  For every run that yields a report, [token_usage] is the
    value of the [usage_metadata] field of the last message that exposes
    the field, whatever that value is (last writer wins, nothing is added
    up): with exactly one such message it is that message's value, with two
    it is the later one's, and it is [None] when no message exposes the
    field. *)
Theorem usage_is_last_exposed_field (r : response) (rep : report)
  (Hrep : build_report r = Ok rep) :
  (forall k m v,
      nth_error (get_messages r) k = Some m ->
      usage_metadata m = Some v ->
      (forall j m', (k < j)%nat -> nth_error (get_messages r) j = Some m' ->
                    usage_metadata m' = None) ->
      token_usage rep = v)
  /\ (forall k m v,
        nth_error (get_messages r) k = Some m ->
        usage_metadata m = Some v ->
        (forall j m', j <> k -> nth_error (get_messages r) j = Some m' ->
                      usage_metadata m' = None) ->
        token_usage rep = v)
  /\ (forall i k mi mk vi vk,
        (i < k)%nat ->
        nth_error (get_messages r) i = Some mi ->
        nth_error (get_messages r) k = Some mk ->
        usage_metadata mi = Some vi ->
        usage_metadata mk = Some vk ->
        (forall j m', j <> i -> j <> k ->
                      nth_error (get_messages r) j = Some m' ->
                      usage_metadata m' = None) ->
        token_usage rep = vk)
  /\ (Forall (fun m => usage_metadata m = None) (get_messages r) ->
      token_usage rep = PyNone).
Proof.
  split; [|split; [|split]].
  - intros k m v. apply report_usage_last. exact Hrep.
  - intros k m v Hk Hm Hothers.
    apply (report_usage_last r rep k m v Hrep Hk Hm).
    intros j m' Hj. apply Hothers. lia.
  - intros i k mi mk vi vk Hik Hi Hk Hmi Hmk Hothers.
    apply (report_usage_last r rep k mk vk Hrep Hk Hmk).
    intros j m' Hj. apply Hothers; lia.
  - intros Hall. rewrite (report_usage_fold r rep Hrep).
    apply usage_fold_unset. exact Hall.
Qed.

(** ** The tool-call count *)

Lemma add_tool_calls_ok (m : message) (c : Z) :
  tool_calls_ok m = true ->
  add_tool_calls m c = Ok (c + Z.of_nat (length (tool_call_list m))).
Proof.
  unfold tool_calls_ok, add_tool_calls, tool_call_list.
  destruct (tool_calls m) as [[| | |items|]|]; try discriminate; intros _;
    simpl; try (f_equal; lia).
  destruct items; simpl; f_equal; lia.
Qed.

Lemma count_usage_loop_ok (ms : list message) :
  Forall (fun m => tool_calls_ok m = true) ms ->
  forall c u,
    count_usage_loop ms c u
    = Ok (c + spec_tool_call_total ms,
          fold_left (fun acc m => set_token_usage m acc) ms u).
Proof.
  induction 1 as [|m ms Hm _ IH]; intros c u; simpl.
  - unfold spec_tool_call_total. simpl. f_equal. f_equal. lia.
  - rewrite (add_tool_calls_ok m c Hm). simpl. rewrite IH.
    unfold spec_tool_call_total. simpl. f_equal. f_equal. lia.
Qed.

Lemma build_report_ok (r : response) :
  Forall (fun m => tool_calls_ok m = true) (get_messages r) ->
  build_report r
  = Ok (mkReport
          (final_answer_loop (rev (get_messages r)) PyNone)
          (spec_tool_call_total (get_messages r))
          (fold_left (fun acc m => set_token_usage m acc)
                     (get_messages r) PyNone)
          (Z.of_nat (length (get_messages r)))).
Proof.
  intros H. unfold build_report.
  rewrite (count_usage_loop_ok _ H). reflexivity.
Qed.

Lemma spec_tool_call_total_perm (ms ms' : list message) :
  Permutation ms ms' ->
  spec_tool_call_total ms = spec_tool_call_total ms'.
Proof.
  unfold spec_tool_call_total.
  induction 1; simpl; lia.
Qed.

Lemma spec_tool_call_total_zero (ms : list message) :
  Forall (fun m => tool_call_list m = []) ms ->
  spec_tool_call_total ms = 0.
Proof.
  unfold spec_tool_call_total.
  induction 1 as [|m ms Hm _ IH]; simpl; auto.
  rewrite Hm, IH. reflexivity.
Qed.

Lemma spec_tool_call_total_nonneg (ms : list message) :
  0 <= spec_tool_call_total ms.
Proof.
  unfold spec_tool_call_total.
  induction ms as [|m ms IH]; simpl; lia.
Qed.

(** C3. For every run whose [tool_calls] attributes are missing, [None] or
    lists, the report exists and [tool_calls_count] is the sum of the
    lengths of the messages' tool-call lists (absent or empty counting 0);
    the count is the same for every reordering of the messages; and it is
    0 when no message has tool calls. *)
Theorem tool_calls_count_is_sum (r : response)
  (Hshape : Forall (fun m => tool_calls_ok m = true) (get_messages r)) :
  exists rep,
    build_report r = Ok rep
    /\ tool_calls_count rep = spec_tool_call_total (get_messages r)
    /\ (forall r', Permutation (get_messages r) (get_messages r') ->
          exists rep', build_report r' = Ok rep'
                       /\ tool_calls_count rep' = tool_calls_count rep)
    /\ (Forall (fun m => tool_call_list m = []) (get_messages r) ->
        tool_calls_count rep = 0).
Proof.
  eexists. split; [apply (build_report_ok r Hshape)|]. simpl.
  split; [reflexivity|]. split.
  - intros r' Hperm.
    assert (Hshape' : Forall (fun m => tool_calls_ok m = true)
                             (get_messages r')).
    { apply (Permutation_Forall Hperm). exact Hshape. }
    eexists. split; [apply (build_report_ok r' Hshape')|]. simpl.
    symmetry. apply spec_tool_call_total_perm. exact Hperm.
  - apply spec_tool_call_total_zero.
Qed.

(** C4. For every run whose message sequence is empty the report is
    [final_answer = None], [tool_calls_count = 0], [token_usage = None],
    [message_count = 0]. *)
Theorem empty_run_report (r : response) (Hempty : get_messages r = []) :
  build_report r = Ok (mkReport PyNone 0 PyNone 0).
Proof.
  unfold build_report. rewrite Hempty. reflexivity.
Qed.

(** ** Splitting and stripping *)

Lemma split_lines_cons (s : pystr) :
  exists line lines, split_lines s = line :: lines.
Proof.
  destruct s as [|c rest]; simpl; eauto.
  destruct (c =? 10)%N; eauto.
  destruct (split_lines rest); eauto.
Qed.

Lemma join_lines_cons (line : pystr) (l : pystr) (ls : list pystr) :
  join_lines (line :: l :: ls) = line ++ [10%N] ++ join_lines (l :: ls).
Proof. reflexivity. Qed.

(** Joining the pieces of [split] with line feeds gives the text back. *)
Lemma join_split_lines (s : pystr) : join_lines (split_lines s) = s.
Proof.
  induction s as [|c rest IH]; [reflexivity|].
  simpl split_lines.
  destruct (split_lines_cons rest) as (l & ls & Hs).
  rewrite Hs in *.
  destruct (N.eqb_spec c 10) as [->|Hc].
  - rewrite join_lines_cons, IH. reflexivity.
  - destruct ls as [|l' ls'].
    + simpl in *. now rewrite IH.
    + rewrite join_lines_cons. rewrite join_lines_cons in IH.
      simpl. simpl in IH. now rewrite IH.
Qed.

(** No piece holds a line feed. *)
Lemma split_lines_no_feed (s : pystr) :
  Forall (fun line => ~ In 10%N line) (split_lines s).
Proof.
  induction s as [|c rest IH]; simpl.
  - constructor; auto.
  - destruct (N.eqb_spec c 10) as [->|Hc].
    + constructor; auto.
    + destruct (split_lines rest) as [|l ls].
      * constructor; auto. simpl. intros [H|[]]. congruence.
      * inversion IH; subst. constructor; auto.
        simpl. intros [H|H]; [congruence|contradiction].
Qed.

Lemma lstrip_spec (s : pystr) :
  exists ws, s = ws ++ lstrip s /\ all_space ws
             /\ (forall c, hd_error (lstrip s) = Some c -> isspace c = false).
Proof.
  induction s as [|c rest (ws & Heq & Hws & Hhd)].
  - exists []. simpl. repeat split; [constructor | discriminate].
  - simpl. destruct (isspace c) eqn:Hc.
    + exists (c :: ws). simpl. rewrite <- Heq.
      repeat split; auto. constructor; auto.
    + exists []. simpl. repeat split; [constructor|].
      intros c' H. inversion H; subst. exact Hc.
Qed.

Lemma rstrip_spec (s : pystr) :
  exists ws, s = rstrip s ++ ws /\ all_space ws
             /\ (forall c, hd_error (rev (rstrip s)) = Some c ->
                           isspace c = false).
Proof.
  unfold rstrip.
  destruct (lstrip_spec (rev s)) as (ws & Heq & Hws & Hhd).
  exists (rev ws). rewrite rev_involutive. repeat split; auto.
  - rewrite <- rev_app_distr, <- Heq, rev_involutive. reflexivity.
  - apply Forall_rev. exact Hws.
Qed.

(** [strip] removes a run of whitespace at each end, and what is left
    neither starts nor ends with whitespace. *)
Lemma strip_spec (s : pystr) :
  exists ws1 ws2,
    s = ws1 ++ strip s ++ ws2 /\ all_space ws1 /\ all_space ws2
    /\ (forall c, hd_error (strip s) = Some c -> isspace c = false)
    /\ (forall c, hd_error (rev (strip s)) = Some c -> isspace c = false).
Proof.
  unfold strip.
  destruct (lstrip_spec s) as (ws1 & Heq1 & Hws1 & Hhd1).
  destruct (rstrip_spec (lstrip s)) as (ws2 & Heq2 & Hws2 & Hhd2).
  exists ws1, ws2. repeat split; auto.
  - rewrite <- Heq2. exact Heq1.
  - intros c Hc. apply Hhd1. rewrite Heq2.
    destruct (rstrip (lstrip s)); [discriminate|exact Hc].
Qed.

Lemma all_space_app (a b : pystr) :
  all_space a -> all_space b -> all_space (a ++ b).
Proof. intros Ha Hb. apply Forall_app. split; assumption. Qed.

Lemma hd_error_rev_cons (c : N) (s : pystr) :
  exists last, hd_error (rev (c :: s)) = Some last.
Proof.
  simpl. destruct (rev s); simpl; eauto.
Qed.

(** ** The answer section *)

Lemma print_answer_line_shown (line : pystr) :
  exists text, print_answer_line line = ([text], Ok tt) /\ shown_as line text.
Proof.
  unfold print_answer_line.
  destruct (strip_spec line) as (ws1 & ws2 & Heq & Hws1 & Hws2 & Hhd & Hlast).
  destruct (strip line) as [|c core] eqn:Hs.
  - exists []. split; [reflexivity|]. left. split; [|reflexivity].
    rewrite Heq. simpl. apply all_space_app; assumption.
  - exists (grey_indented (c :: core)). split; [reflexivity|]. right.
    destruct (hd_error_rev_cons c core) as [last Hl].
    exists ws1, (c :: core), ws2, c, last.
    repeat split; auto.
Qed.

Lemma print_answer_lines_shown (lines : list pystr) :
  exists printed,
    print_answer_lines lines = (printed, Ok tt)
    /\ Forall2 shown_as lines printed.
Proof.
  induction lines as [|line rest (printed & Hrest & Hshown)].
  - exists []. split; [reflexivity|constructor].
  - destruct (print_answer_line_shown line) as (text & Hline & Hs).
    exists (text :: printed). split; [|constructor; assumption].
    simpl. unfold io_bind. rewrite Hline, Hrest. reflexivity.
Qed.

Lemma print_answer_text (s : pystr) :
  s <> [] ->
  exists printed,
    print_answer (PyStr s) = (printed, Ok tt)
    /\ Forall2 shown_as (split_lines s) printed.
Proof.
  intros Hs.
  destruct (print_answer_lines_shown (split_lines s)) as (printed & Hp & Hsh).
  exists printed. split; [|exact Hsh].
  assert (Ht : truthy (PyStr s) = true).
  { destruct s; [congruence|reflexivity]. }
  unfold print_answer. rewrite Ht.
  unfold io_bind, lift, py_split. cbn [fst snd].
  rewrite Hp. reflexivity.
Qed.

Lemma print_answer_none :
  print_answer PyNone = ([RED ++ lit "   No response found" ++ RESET], Ok tt).
Proof. reflexivity. Qed.

(** ** Sequencing of prints *)

Lemma io_bind_ok {A B} (c : io A) (k : A -> io B) (a : A) :
  snd c = Ok a -> io_bind c k = (fst c ++ fst (k a), snd (k a)).
Proof. unfold io_bind. intros ->. reflexivity. Qed.

Lemma print_header_prints (timestamp user_question model_name : pystr) :
  snd (print_header timestamp user_question model_name) = Ok tt
  /\ length (fst (print_header timestamp user_question model_name)) = 8%nat
  /\ nth_error (fst (print_header timestamp user_question model_name)) 6
     = Some (grey_indented user_question).
Proof. repeat split. Qed.

Lemma print_answer_ok (a : pyval) :
  match a with PyNone | PyStr _ => True | _ => False end ->
  snd (print_answer a) = Ok tt.
Proof.
  destruct a as [| |s| |]; try contradiction; intros _.
  - reflexivity.
  - destruct s as [|c s']; [reflexivity|].
    destruct (print_answer_text (c :: s')) as (printed & Hp & _);
      [discriminate|].
    rewrite Hp. reflexivity.
Qed.

Lemma print_tool_calls_ok (count : Z) : snd (print_tool_calls count) = Ok tt.
Proof. unfold print_tool_calls. destruct (0 <? count); reflexivity. Qed.

Lemma dict_get_missing (entries : list (pystr * pyval)) (key : pystr)
  (default : pyval) :
  ~ In key (dict_keys entries) -> dict_get entries key default = default.
Proof.
  induction entries as [|[k v] rest IH]; simpl; auto.
  intros Hnot. unfold pystr_eqb.
  destruct (list_eq_dec N.eq_dec k key) as [->|_]; [tauto|].
  apply IH. tauto.
Qed.

Lemma dict_get_bound (entries : list (pystr * pyval)) (key : pystr)
  (v default : pyval) :
  NoDup (dict_keys entries) -> In (key, v) entries ->
  dict_get entries key default = v.
Proof.
  induction entries as [|[k w] rest IH]; simpl; [tauto|].
  intros Hnd Hin. inversion Hnd as [|? ? Hk Hrest]; subst.
  unfold pystr_eqb.
  destruct (list_eq_dec N.eq_dec k key) as [->|Hne].
  - destruct Hin as [Heq|Hin]; [congruence|].
    exfalso. apply Hk. apply (in_map fst _ _ Hin).
  - destruct Hin as [Heq|Hin]; [congruence|]. apply IH; assumption.
Qed.

Section RenderProperties.

Variable py_repr : pyval -> pystr.

Lemma print_token_usage_falsy (u : pyval) :
  truthy u = false -> print_token_usage py_repr u = ([], Ok tt).
Proof. unfold print_token_usage. intros ->. reflexivity. Qed.

Lemma print_token_usage_dict (e : pystr * pyval) (es : list (pystr * pyval)) :
  print_token_usage py_repr (PyDict (e :: es))
  = ([metadata_line "Input tokens:"
        (py_str py_repr (dict_get (e :: es) (lit "input_tokens") NA));
      metadata_line "Output tokens:"
        (py_str py_repr (dict_get (e :: es) (lit "output_tokens") NA));
      metadata_line "Total tokens:"
        (py_str py_repr (dict_get (e :: es) (lit "total_tokens") NA))],
     Ok tt).
Proof. reflexivity. Qed.

Lemma print_token_usage_ok (u : pyval) :
  match u with PyNone | PyDict _ => True | _ => False end ->
  snd (print_token_usage py_repr u) = Ok tt.
Proof.
  destruct u as [| | | |[|e es]]; try contradiction; reflexivity.
Qed.

Lemma print_metadata_prints (rep : report) :
  snd (print_token_usage py_repr (token_usage rep)) = Ok tt ->
  print_metadata py_repr rep
  = ((([10%N] ++ BOLD ++ BLUE ++ [128202%N] ++ lit " Metadata:" ++ RESET)
      :: fst (print_token_usage py_repr (token_usage rep)))
     ++ fst (print_tool_calls (tool_calls_count rep))
     ++ [metadata_line "Total messages:" (str_of_int (message_count rep));
         BLUE ++ rule ++ RESET ++ [10%N]],
     Ok tt).
Proof.
  intros Hu. unfold print_metadata.
  rewrite (io_bind_ok (print _) _ tt) by reflexivity.
  rewrite (io_bind_ok (print_token_usage _ _) _ tt) by exact Hu.
  rewrite (io_bind_ok (print_tool_calls _) _ tt)
    by apply print_tool_calls_ok.
  rewrite (io_bind_ok (print _) _ tt) by reflexivity.
  cbn [fst snd print]. reflexivity.
Qed.

Lemma render_report_prints (timestamp : pystr) (rep : report)
  (user_question model_name : pystr) :
  snd (print_answer (final_answer rep)) = Ok tt ->
  render_report py_repr timestamp rep user_question model_name
  = (fst (print_header timestamp user_question model_name)
     ++ fst (print_answer (final_answer rep))
     ++ fst (print_metadata py_repr rep),
     snd (print_metadata py_repr rep)).
Proof.
  intros Ha. unfold render_report.
  rewrite (io_bind_ok (print_header _ _ _) _ tt)
    by apply print_header_prints.
  rewrite (io_bind_ok (print_answer _) _ tt) by exact Ha.
  reflexivity.
Qed.

(** The prints that follow the answer section. *)
Lemma render_report_after_answer (timestamp : pystr) (rep : report)
  (user_question model_name : pystr) :
  snd (print_answer (final_answer rep)) = Ok tt ->
  skipn (8 + length (fst (print_answer (final_answer rep))))
        (fst (render_report py_repr timestamp rep user_question model_name))
  = fst (print_metadata py_repr rep).
Proof.
  intros Ha. rewrite (render_report_prints _ _ _ _ Ha). cbn [fst].
  destruct (print_header_prints timestamp user_question model_name)
    as (_ & Hlen & _).
  rewrite app_assoc. rewrite skipn_app.
  rewrite length_app, Hlen.
  rewrite skipn_all2 by (rewrite length_app, Hlen; lia).
  rewrite Nat.sub_diag. reflexivity.
Qed.

End RenderProperties.

(** ** The answer section in the rendering *)


(** ** The metadata section *)



(** ** The question *)

Lemma split_lines_one (s : pystr) : ~ In 10%N s -> split_lines s = [s].
Proof.
  induction s as [|c rest IH]; simpl; auto.
  intros Hnot. destruct (N.eqb_spec c 10) as [->|_]; [tauto|].
  rewrite IH by tauto. reflexivity.
Qed.

(** A prefix without line feed joins the first line. *)
Lemma split_lines_prefix (pre s : pystr) :
  ~ In 10%N pre ->
  split_lines (pre ++ s)
  = (pre ++ hd [] (split_lines s)) :: tl (split_lines s).
Proof.
  induction pre as [|c pre IH]; simpl; intros Hnot.
  - destruct (split_lines_cons s) as (l & ls & ->). reflexivity.
  - destruct (N.eqb_spec c 10) as [->|_]; [tauto|].
    rewrite IH by tauto. reflexivity.
Qed.

(** A suffix without line feed joins the last line. *)
Lemma split_lines_suffix (s suf : pystr) :
  ~ In 10%N suf ->
  split_lines (s ++ suf)
  = removelast (split_lines s) ++ [last (split_lines s) [] ++ suf].
Proof.
  intros Hnot. induction s as [|c rest IH].
  - simpl. apply split_lines_one. exact Hnot.
  - simpl app. simpl split_lines. rewrite IH.
    destruct (split_lines_cons rest) as (l & ls & ->).
    destruct (N.eqb_spec c 10) as [->|_].
    + reflexivity.
    + destruct ls as [|l' ls']; reflexivity.
Qed.

Lemma no_feed_DARK_GREY_indent : ~ In 10%N (DARK_GREY ++ indent).
Proof. vm_compute. intuition discriminate. Qed.

Lemma no_feed_RESET : ~ In 10%N RESET.
Proof. vm_compute. intuition discriminate. Qed.

(** C8, the claim as stated fails.  For the two-line question ["a\nb"] the
    stream holds the line ["b" ++ RESET], which starts at the first column,
    and no line of the stream shows ["b"] after the indentation. *)
Lemma second_question_line_not_indented :
  let out := fst (format_agent_response no_repr sample_timestamp
                    (mkResponse (Some [])) question_two_lines sample_model) in
  split_lines question_two_lines = [lit "a"; lit "b"]
  /\ In (grey_indented question_two_lines) out
  /\ In (DARK_GREY ++ indent ++ lit "a") (stdout_lines out)
  /\ In (lit "b" ++ RESET) (stdout_lines out)
  /\ forallb (fun line => negb (contains (indent ++ lit "b") line))
       (stdout_lines out) = true.
Proof.
  vm_compute. intuition.
Qed.

(** C8, amended.  For every question text the rendering prints the question
    verbatim in one text, after the colour code and the three-space
    indentation and before the colour reset.  Of the lines of the question
    only the first is therefore indented: a single-line question is shown
    indented, and the later lines of a multi-line question are written as
    they are, the last one followed by the reset code. *)
Theorem question_printed_verbatim (py_repr : pyval -> pystr)
  (timestamp : pystr) (rep : report) (user_question model_name : pystr) :
  nth_error (fst (render_report py_repr timestamp rep
                    user_question model_name)) 6
  = Some (DARK_GREY ++ indent ++ user_question ++ RESET)
  /\ (forall first others,
        split_lines user_question = first :: others ->
        split_lines (DARK_GREY ++ indent ++ user_question ++ RESET)
        = match others with
          | [] => [DARK_GREY ++ indent ++ first ++ RESET]
          | _ :: _ =>
              (DARK_GREY ++ indent ++ first)
              :: removelast others ++ [last others [] ++ RESET]
          end).
Proof.
  split.
  - unfold render_report.
    rewrite (io_bind_ok (print_header _ _ _) _ tt)
      by apply print_header_prints.
    reflexivity.
  - intros first others Hq.
    rewrite (app_assoc DARK_GREY indent).
    rewrite split_lines_prefix by apply no_feed_DARK_GREY_indent.
    rewrite split_lines_suffix by apply no_feed_RESET.
    rewrite Hq. rewrite <- (app_assoc DARK_GREY indent).
    destruct others as [|l ls]; [reflexivity|].
    reflexivity.
Qed.

(** ** The whole function *)

Lemma format_agent_response_ok (py_repr : pyval -> pystr) (timestamp : pystr)
  (r : response) (rep : report) (user_question model_name : pystr) :
  build_report r = Ok rep ->
  format_agent_response py_repr timestamp r user_question model_name
  = render_report py_repr timestamp rep user_question model_name.
Proof.
  intros Hrep. unfold format_agent_response, io_bind, lift.
  cbn [fst snd]. rewrite Hrep. cbn [app].
  destruct (render_report py_repr timestamp rep user_question model_name).
  reflexivity.
Qed.

(** C9. The forward scan overwrites the usage accumulator at every message
    that exposes [usage_metadata], whatever the value.  So when the last
    message exposing the field holds [None] or an empty record, the
    report's usage is that value, whatever usage earlier messages carried,
    and the rendering has no token line: the metadata heading is followed
    directly by the tool-call line (if any) and the message count. *)
Theorem null_usage_field_overwrites (py_repr : pyval -> pystr)
  (timestamp : pystr) (r : response) (rep : report)
  (user_question model_name : pystr) (Hrep : build_report r = Ok rep) :
  (forall m rest c u v,
      usage_metadata m = Some v ->
      count_usage_loop (m :: rest) c u
      = (c' <- add_tool_calls m c ;; count_usage_loop rest c' v))
  /\ (forall k m v,
        nth_error (get_messages r) k = Some m ->
        usage_metadata m = Some v ->
        truthy v = false ->
        (forall j m', (k < j)%nat -> nth_error (get_messages r) j = Some m' ->
                      usage_metadata m' = None) ->
        token_usage rep = v
        /\ print_token_usage py_repr (token_usage rep) = ([], Ok tt)
        /\ (snd (print_answer (final_answer rep)) = Ok tt ->
            skipn (8 + length (fst (print_answer (final_answer rep))))
                  (fst (format_agent_response py_repr timestamp r
                          user_question model_name))
            = ([10%N] ++ BOLD ++ BLUE ++ [128202%N] ++ lit " Metadata:"
               ++ RESET)
              :: fst (print_tool_calls (tool_calls_count rep))
              ++ [metadata_line "Total messages:"
                    (str_of_int (message_count rep));
                  BLUE ++ rule ++ RESET ++ [10%N]])).
Proof.
  split.
  - intros m rest c u v Hm. simpl. unfold set_token_usage. rewrite Hm.
    reflexivity.
  - intros k m v Hk Hm Hfalsy Hafter.
    assert (Hv : token_usage rep = v)
      by apply (report_usage_last r rep k m v Hrep Hk Hm Hafter).
    assert (Hp : print_token_usage py_repr (token_usage rep) = ([], Ok tt)).
    { rewrite Hv. apply print_token_usage_falsy. exact Hfalsy. }
    split; [exact Hv|]. split; [exact Hp|].
    intros Ha.
    rewrite (format_agent_response_ok _ _ _ _ _ _ Hrep).
    rewrite (render_report_after_answer py_repr _ _ _ _ Ha).
    rewrite print_metadata_prints by (rewrite Hp; reflexivity).
    rewrite Hp. reflexivity.
Qed.

(** C10. A run record without the ['messages'] entry is treated as a run
    with an empty message sequence: the report and everything printed are
    the same, and the call ends normally. *)
Theorem missing_messages_entry_as_empty (py_repr : pyval -> pystr)
  (timestamp user_question model_name : pystr) :
  get_messages (mkResponse None) = []
  /\ build_report (mkResponse None) = build_report (mkResponse (Some []))
  /\ build_report (mkResponse None) = Ok (mkReport PyNone 0 PyNone 0)
  /\ format_agent_response py_repr timestamp (mkResponse None)
       user_question model_name
     = format_agent_response py_repr timestamp (mkResponse (Some []))
         user_question model_name
  /\ snd (format_agent_response py_repr timestamp (mkResponse None)
            user_question model_name) = Ok tt.
Proof. repeat split. Qed.

(** ** Totality on the data model *)

Lemma final_answer_loop_shape (ms : list message) :
  Forall (fun m => content_ok m = true) ms ->
  match final_answer_loop ms PyNone with
  | PyNone | PyStr _ => True
  | _ => False
  end.
Proof.
  induction 1 as [|m ms Hm _ IH]; simpl; auto.
  unfold content_ok in Hm.
  destruct (content m) as [[| |s| |]|]; try discriminate; auto.
  destruct (truthy (PyStr s)); simpl; auto.
Qed.

Lemma usage_fold_shape (ms : list message) :
  Forall (fun m => usage_ok m = true) ms ->
  forall u,
    match u with PyNone | PyDict _ => True | _ => False end ->
    match fold_left (fun acc m => set_token_usage m acc) ms u with
    | PyNone | PyDict _ => True
    | _ => False
    end.
Proof.
  induction 1 as [|m ms Hm _ IH]; simpl; intros u Hu; auto.
  apply IH. unfold usage_ok in Hm. unfold set_token_usage.
  destruct (usage_metadata m) as [[| | | |]|]; try discriminate; auto.
Qed.

Lemma well_shaped_parts (ms : list message) :
  Forall (fun m => well_shaped m = true) ms ->
  Forall (fun m => content_ok m = true) ms
  /\ Forall (fun m => tool_calls_ok m = true) ms
  /\ Forall (fun m => usage_ok m = true) ms.
Proof.
  intros H. repeat split; eapply Forall_impl; try exact H;
    intros m Hm; unfold well_shaped in Hm;
    apply andb_prop in Hm; destruct Hm as [Hm ?];
    apply andb_prop in Hm; destruct Hm; assumption.
Qed.


(** ** Outside the data model

    The exceptions are real: a truthy [tool_calls] without a length stops
    the function before anything is printed, and a content that is not
    text stops it in the answer section, after the eight prints of the
    header. *)
Lemma tool_calls_without_len_raises :
  format_agent_response no_repr sample_timestamp
    (mkResponse (Some [mkMessage None (Some (PyInt 3)) None]))
    (lit "q") sample_model
  = ([], Raise TypeError).
Proof. reflexivity. Qed.

Lemma content_not_text_raises :
  let c := format_agent_response no_repr sample_timestamp
             (mkResponse (Some [mkMessage (Some (PyList [PyStr (lit "hi")]))
                                          None None]))
             (lit "q") sample_model in
  snd c = Raise AttributeError /\ length (fst c) = 8%nat.
Proof. split; reflexivity. Qed.

(** ** The scenarios of the specification *)

Example scenario_tool_then_answer :
  build_report run_tool_then_answer
  = Ok (mkReport (PyStr (lit "42")) 1 PyNone 2).
Proof. reflexivity. Qed.

Example scenario_two_usages :
  build_report run_two_usages
  = Ok (mkReport (PyStr (lit "done")) 0 usage_5_3_8 2).
Proof. reflexivity. Qed.

(** * The theorems at sample runs *)

Lemma final_answer_is_last_content_witness :
  build_report run_answer_then_tool
  = Ok (mkReport (PyStr (lit "42")) 1 PyNone 2)
  /\ final_answer (mkReport (PyStr (lit "42")) 1 PyNone 2)
     = PyStr (lit "42").
Proof.
  split; [reflexivity|].
  destruct (final_answer_is_last_content run_answer_then_tool
              (mkReport (PyStr (lit "42")) 1 PyNone 2) eq_refl)
    as (_ & _ & Hlast & _).
  apply (Hlast 0%nat msg_answer_42 (PyStr (lit "42")));
    try reflexivity.
  intros j m' Hj Hnth.
  destruct j as [|[|j]]; simpl in Hnth.
  - inversion Hj.
  - inversion Hnth. reflexivity.
  - destruct j; discriminate Hnth.
Defined.

Lemma usage_is_last_exposed_field_witness :
  build_report run_two_usages
  = Ok (mkReport (PyStr (lit "done")) 0 usage_5_3_8 2)
  /\ token_usage (mkReport (PyStr (lit "done")) 0 usage_5_3_8 2)
     = usage_5_3_8.
Proof.
  split; [reflexivity|].
  destruct (usage_is_last_exposed_field run_two_usages
              (mkReport (PyStr (lit "done")) 0 usage_5_3_8 2) eq_refl)
    as (_ & _ & Htwo & _).
  apply (Htwo 0%nat 1%nat msg_thinking msg_done usage_5_0_5 usage_5_3_8);
    try reflexivity.
  - constructor.
  - intros j m' Hj0 Hj1 Hnth.
    destruct j as [|[|j]]; simpl in Hnth.
    + elim Hj0. reflexivity.
    + elim Hj1. reflexivity.
    + destruct j; discriminate Hnth.
Defined.

Lemma tool_calls_count_is_sum_witness :
  Forall (fun m => tool_calls_ok m = true) (get_messages run_tool_then_answer)
  /\ exists rep,
       build_report run_tool_then_answer = Ok rep
       /\ tool_calls_count rep = 1.
Proof.
  assert (Hshape : Forall (fun m => tool_calls_ok m = true)
                          (get_messages run_tool_then_answer)).
  { repeat constructor. }
  split; [exact Hshape|].
  destruct (tool_calls_count_is_sum run_tool_then_answer Hshape)
    as (rep & Hrep & Hsum & _).
  exists rep. split; [exact Hrep|]. rewrite Hsum. reflexivity.
Defined.

Lemma empty_run_report_witness :
  get_messages (mkResponse (Some [])) = []
  /\ build_report (mkResponse (Some [])) = Ok (mkReport PyNone 0 PyNone 0).
Proof.
  split; [reflexivity|].
  apply (empty_run_report (mkResponse (Some [])) eq_refl).
Defined.




Lemma question_printed_verbatim_witness :
  split_lines question_two_lines = [lit "a"; lit "b"]
  /\ split_lines (DARK_GREY ++ indent ++ question_two_lines ++ RESET)
     = [DARK_GREY ++ indent ++ lit "a"; lit "b" ++ RESET].
Proof.
  split; [reflexivity|].
  destruct (question_printed_verbatim no_repr sample_timestamp
              report_three_lines question_two_lines sample_model)
    as (_ & Hlines).
  exact (Hlines (lit "a") [lit "b"] eq_refl).
Defined.

Lemma null_usage_field_overwrites_witness :
  build_report run_null_usage_last
  = Ok (mkReport (PyStr (lit "done")) 0 PyNone 2)
  /\ token_usage (mkReport (PyStr (lit "done")) 0 PyNone 2) = PyNone
  /\ print_token_usage no_repr
       (token_usage (mkReport (PyStr (lit "done")) 0 PyNone 2))
     = ([], Ok tt).
Proof.
  split; [reflexivity|].
  destruct (null_usage_field_overwrites no_repr sample_timestamp
              run_null_usage_last
              (mkReport (PyStr (lit "done")) 0 PyNone 2)
              (lit "q") sample_model eq_refl) as (_ & Hlast).
  destruct (Hlast 1%nat
              (mkMessage (Some (PyStr (lit "done"))) None (Some PyNone))
              PyNone eq_refl eq_refl eq_refl) as (Hv & Hp & _).
  - intros j m' Hj Hnth.
    destruct j as [|[|j]]; simpl in Hnth.
    + inversion Hj.
    + inversion Hj as [|? Hj']. inversion Hj'.
    + destruct j; discriminate Hnth.
  - split; [exact Hv | exact Hp].
Defined.

(** * Further properties of [format_agent_response] *)

(** ** The answer the report holds *)

Lemma final_answer_loop_found (ms : list message) :
  (final_answer_loop ms PyNone = PyNone
   /\ Forall (fun m => has_content m = false) ms)
  \/ (truthy (final_answer_loop ms PyNone) = true
      /\ exists m, In m ms
                   /\ content m = Some (final_answer_loop ms PyNone)).
Proof.
  induction ms as [|m ms IH]; simpl.
  - left. split; [reflexivity|constructor].
  - destruct (content m) as [c|] eqn:Hc.
    + destruct (truthy c) eqn:Ht; simpl.
      * right. split; [exact Ht|]. exists m. split; [now left|exact Hc].
      * destruct IH as [[Hn Hall]|[Ht' (m' & Hin & Hm')]].
        -- left. split; [exact Hn|]. constructor; [|exact Hall].
           unfold has_content. rewrite Hc. exact Ht.
        -- right. split; [exact Ht'|]. exists m'. split; [now right|exact Hm'].
    + destruct IH as [[Hn Hall]|[Ht' (m' & Hin & Hm')]].
      * left. split; [exact Hn|]. constructor; [|exact Hall].
        unfold has_content. rewrite Hc. reflexivity.
      * right. split; [exact Ht'|]. exists m'. split; [now right|exact Hm'].
Qed.

(** X1. The report's answer is [None] exactly when no message of the run
    has truthy content; otherwise it is the truthy content of one of the
    run's messages.  So the answer is never an empty text, and the line
    [No response found] is printed exactly for runs without content. *)
Theorem no_answer_iff_no_content (r : response) (rep : report)
  (Hrep : build_report r = Ok rep) :
  (final_answer rep = PyNone
   <-> Forall (fun m => has_content m = false) (get_messages r))
  /\ (final_answer rep <> PyNone ->
      truthy (final_answer rep) = true
      /\ exists m, In m (get_messages r)
                   /\ content m = Some (final_answer rep))
  /\ (fst (print_answer (final_answer rep))
      = [RED ++ lit "   No response found" ++ RESET]
      <-> Forall (fun m => has_content m = false) (get_messages r)).
Proof.
  destruct (build_report_fields r rep Hrep) as (Hfa & _ & _).
  assert (Hiff : final_answer rep = PyNone
                 <-> Forall (fun m => has_content m = false) (get_messages r)).
  { rewrite Hfa. split.
    - intros Hn.
      destruct (final_answer_loop_found (rev (get_messages r)))
        as [[_ Hall]|[Ht _]].
      + rewrite <- (rev_involutive (get_messages r)).
        apply Forall_rev. exact Hall.
      + rewrite Hn in Ht. discriminate.
    - intros Hall. apply final_answer_loop_none. apply Forall_rev.
      exact Hall. }
  assert (Hsome : final_answer rep <> PyNone ->
                  truthy (final_answer rep) = true
                  /\ exists m, In m (get_messages r)
                               /\ content m = Some (final_answer rep)).
  { rewrite Hfa. intros Hne.
    destruct (final_answer_loop_found (rev (get_messages r)))
      as [[Hn _]|[Ht (m & Hin & Hm)]]; [contradiction|].
    split; [exact Ht|]. exists m. split; [|exact Hm].
    apply in_rev. exact Hin. }
  split; [exact Hiff|]. split; [exact Hsome|].
  rewrite <- Hiff. split.
  - intros Hp. destruct (final_answer rep) as [|n|s|items|entries] eqn:Ha;
      [reflexivity| | | |]; exfalso;
      destruct Hsome as (Ht & _); try discriminate.
    + unfold print_answer in Hp. rewrite Ht in Hp. discriminate Hp.
    + destruct (print_answer_text s) as (printed & Hpr & Hshown).
      { intros ->. discriminate Ht. }
      rewrite Hpr in Hp. simpl in Hp. subst printed.
      destruct (split_lines_cons s) as (l & ls & Hs). rewrite Hs in Hshown.
      inversion Hshown as [|? ? ? ? Hsh Hrest]; subst.
      inversion Hrest; subst.
      destruct Hsh as [[_ Habs]|(ws1 & core & ws2 & f & la & _ & _ & _ & _ & _
                                  & _ & _ & Habs)];
        vm_compute in Habs; discriminate Habs.
    + unfold print_answer in Hp. rewrite Ht in Hp. discriminate Hp.
    + unfold print_answer in Hp. rewrite Ht in Hp. discriminate Hp.
  - intros ->. reflexivity.
Qed.

(** ** The tool-call count on any run *)

Lemma add_tool_calls_cases (m : message) (c : Z) :
  (has_tool_calls m = false /\ add_tool_calls m c = Ok c)
  \/ (has_tool_calls m = true /\ tool_calls_unsized m = false
      /\ exists n, 0 < n /\ forall c', add_tool_calls m c' = Ok (c' + n))
  \/ (tool_calls_unsized m = true
      /\ forall c', add_tool_calls m c' = Raise TypeError).
Proof.
  unfold has_tool_calls, tool_calls_unsized, add_tool_calls.
  destruct (tool_calls m) as [[|n|s|items|entries]|]; simpl.
  - left. auto.
  - destruct (n =? 0); simpl; [left; auto|right; right; auto].
  - destruct s as [|ch s']; [left; auto|]. right. left.
    repeat split. exists (Z.of_nat (length (ch :: s'))).
    split; [simpl length; lia|reflexivity].
  - destruct items as [|i items']; [left; auto|]. right. left.
    repeat split. exists (Z.of_nat (length (i :: items'))).
    split; [simpl length; lia|reflexivity].
  - destruct entries as [|e entries']; [left; auto|]. right. left.
    repeat split. exists (Z.of_nat (length (e :: entries'))).
    split; [simpl length; lia|reflexivity].
  - left. auto.
Qed.

Lemma count_usage_loop_count (ms : list message) :
  forall c u c' u',
    count_usage_loop ms c u = Ok (c', u') ->
    c <= c'
    /\ (c' = c <-> Forall (fun m => has_tool_calls m = false) ms).
Proof.
  induction ms as [|m ms IH]; simpl; intros c u c' u' H.
  - inversion H; subst. split; [lia|]. split; auto.
  - destruct (add_tool_calls_cases m c)
      as [[Hno Hadd]|[(Hyes & _ & n & Hn & Hadd)|[_ Hadd]]].
    + rewrite Hadd in H. simpl in H.
      destruct (IH _ _ _ _ H) as (Hle & Hiff).
      split; [exact Hle|]. rewrite Hiff. split.
      * intros Hall. constructor; assumption.
      * intros Hall. inversion Hall; assumption.
    + rewrite Hadd in H. simpl in H.
      destruct (IH _ _ _ _ H) as (Hle & _).
      split; [lia|]. split.
      * intros Heq. lia.
      * intros Hall. inversion Hall; congruence.
    + rewrite Hadd in H. discriminate.
Qed.

(** X2. Whatever the attributes hold, a report that is built has a count
    that is not negative, and the count is 0 exactly when no message has a
    truthy [tool_calls]; so the line [Tool calls made] is left out exactly
    for such runs. *)
Theorem tool_calls_count_zero_iff (r : response) (rep : report)
  (Hrep : build_report r = Ok rep) :
  0 <= tool_calls_count rep
  /\ (tool_calls_count rep = 0
      <-> Forall (fun m => has_tool_calls m = false) (get_messages r))
  /\ (fst (print_tool_calls (tool_calls_count rep)) = []
      <-> Forall (fun m => has_tool_calls m = false) (get_messages r)).
Proof.
  destruct (build_report_fields r rep Hrep) as (_ & Hcu & _).
  destruct (count_usage_loop_count _ _ _ _ _ Hcu) as (Hle & Hiff).
  split; [exact Hle|]. split; [exact Hiff|].
  rewrite <- Hiff. unfold print_tool_calls.
  destruct (0 <? tool_calls_count rep) eqn:Hpos; simpl.
  - apply Z.ltb_lt in Hpos. split; [discriminate|lia].
  - apply Z.ltb_ge in Hpos. split; [lia|reflexivity].
Qed.

(** ** When the report cannot be built *)

Lemma count_usage_loop_raises (ms : list message) :
  forall c u,
    (Exists (fun m => tool_calls_unsized m = true) ms
     /\ count_usage_loop ms c u = Raise TypeError)
    \/ (Forall (fun m => tool_calls_unsized m = false) ms
        /\ exists c' u', count_usage_loop ms c u = Ok (c', u')).
Proof.
  induction ms as [|m ms IH]; simpl; intros c u.
  - right. split; [constructor|eauto].
  - destruct (add_tool_calls_cases m c)
      as [[Hno Hadd]|[(_ & Hsized & n & _ & Hadd)|[Hbad Hadd]]].
    + rewrite Hadd. simpl.
      assert (Hsized : tool_calls_unsized m = false).
      { unfold has_tool_calls in Hno. unfold tool_calls_unsized.
        destruct (tool_calls m) as [[| | | |]|]; auto. }
      destruct (IH c (set_token_usage m u)) as [[Hex Hr]|[Hall Hok]].
      * left. split; [now apply Exists_cons_tl|exact Hr].
      * right. split; [constructor; assumption|exact Hok].
    + rewrite Hadd. simpl.
      destruct (IH (c + n) (set_token_usage m u)) as [[Hex Hr]|[Hall Hok]].
      * left. split; [now apply Exists_cons_tl|exact Hr].
      * right. split; [constructor; assumption|exact Hok].
    + rewrite Hadd. simpl. left. split; [now apply Exists_cons_hd|reflexivity].
Qed.

Lemma Exists_not_Forall_false {A} (f : A -> bool) (l : list A) :
  Exists (fun x => f x = true) l ->
  Forall (fun x => f x = false) l -> False.
Proof.
  induction 1 as [x l Hx|x l _ IH]; intros Hall; inversion Hall; subst.
  - congruence.
  - auto.
Qed.

(** X3. The report fails to build exactly when some message has a truthy
    [tool_calls] without a length (a non-zero integer); the exception is
    then a [TypeError] raised by [len] in the second loop, before any
    [print]: nothing at all is written, not even the banner. *)
Theorem build_report_raises_iff (py_repr : pyval -> pystr)
  (timestamp : pystr) (r : response) (user_question model_name : pystr) :
  ((exists e, build_report r = Raise e)
   <-> Exists (fun m => tool_calls_unsized m = true) (get_messages r))
  /\ (forall e, build_report r = Raise e ->
        e = TypeError
        /\ format_agent_response py_repr timestamp r
             user_question model_name
           = ([], Raise TypeError)).
Proof.
  assert (Hcases :
    (Exists (fun m => tool_calls_unsized m = true) (get_messages r)
     /\ build_report r = Raise TypeError)
    \/ (Forall (fun m => tool_calls_unsized m = false) (get_messages r)
        /\ exists rep, build_report r = Ok rep)).
  { unfold build_report.
    destruct (count_usage_loop_raises (get_messages r) 0 PyNone)
      as [[Hex Hr]|[Hall (c' & u' & Hok)]].
    - left. rewrite Hr. auto.
    - right. rewrite Hok. simpl. eauto. }
  split.
  - split.
    + intros [e He]. destruct Hcases as [[Hex _]|[_ [rep Hok]]];
        [exact Hex|congruence].
    + intros Hex. destruct Hcases as [[_ Hr]|[Hall _]]; [eauto|].
      exfalso. exact (Exists_not_Forall_false _ _ Hex Hall).
  - intros e He. destruct Hcases as [[_ Hr]|[_ [rep Hok]]]; [|congruence].
    split; [congruence|].
    unfold format_agent_response, io_bind, lift. cbn [fst snd].
    rewrite Hr. reflexivity.
Qed.

(** ** The report of a run made of two parts *)

Lemma add_tool_calls_shift (m : message) (c c' : Z) :
  add_tool_calls m c = Ok c' ->
  forall c0, add_tool_calls m c0 = Ok (c0 + (c' - c)).
Proof.
  unfold add_tool_calls.
  destruct (tool_calls m) as [tc|].
  - destruct (truthy tc).
    + destruct (py_len tc) as [n|e]; simpl; [|discriminate].
      intros H c0. inversion H; subst. f_equal. lia.
    + intros H c0. inversion H; subst. f_equal. lia.
  - intros H c0. inversion H; subst. f_equal. lia.
Qed.

Lemma count_usage_loop_shift (ms : list message) :
  forall c u c' u',
    count_usage_loop ms c u = Ok (c', u') ->
    forall c0 u0,
      count_usage_loop ms c0 u0
      = Ok (c0 + (c' - c),
            fold_left (fun acc m => set_token_usage m acc) ms u0).
Proof.
  induction ms as [|m ms IH]; simpl; intros c u c' u' H c0 u0.
  - inversion H; subst. f_equal. f_equal. lia.
  - destruct (add_tool_calls m c) as [c1|e] eqn:Hadd; simpl in H;
      [|discriminate].
    rewrite (add_tool_calls_shift m c c1 Hadd c0). simpl.
    rewrite (IH _ _ _ _ H (c0 + (c1 - c)) (set_token_usage m u0)).
    f_equal. f_equal. lia.
Qed.

Lemma count_usage_loop_app (xs ys : list message) :
  forall c u,
    count_usage_loop (xs ++ ys) c u
    = (p <- count_usage_loop xs c u ;; count_usage_loop ys (fst p) (snd p)).
Proof.
  induction xs as [|m xs IH]; simpl; intros c u; [reflexivity|].
  destruct (add_tool_calls m c) as [c1|e]; simpl; [apply IH|reflexivity].
Qed.

Lemma usage_fold_exposed (ms : list message) :
  forall u,
    fold_left (fun acc m => set_token_usage m acc) ms u
    = if existsb exposes_usage ms
      then fold_left (fun acc m => set_token_usage m acc) ms PyNone
      else u.
Proof.
  induction ms as [|m ms IH]; simpl; intros u; [reflexivity|].
  unfold exposes_usage at 1. unfold set_token_usage at 2 4.
  destruct (usage_metadata m) as [v|]; simpl.
  - reflexivity.
  - apply IH.
Qed.

Lemma final_answer_loop_app (xs ys : list message) :
  final_answer_loop (xs ++ ys) PyNone
  = if is_None (final_answer_loop xs PyNone)
    then final_answer_loop ys PyNone
    else final_answer_loop xs PyNone.
Proof.
  induction xs as [|m xs IH]; simpl; [reflexivity|].
  destruct (content m) as [c|]; [|exact IH].
  destruct (truthy c) eqn:Ht; simpl; [|exact IH].
  destruct c; simpl; try reflexivity. discriminate Ht.
Qed.

(** X4. The report of a run whose messages are [ms1] followed by [ms2] is
    determined by the two parts: the counts of tool calls and of messages
    add up; the answer is the one of [ms2] unless that is [None], then the
    one of [ms1]; the usage is the one of [ms2] if any message of [ms2]
    exposes [usage_metadata], and the one of [ms1] otherwise. *)
Theorem report_of_concatenation (ms1 ms2 : list message) (rep1 rep2 : report)
  (H1 : build_report (mkResponse (Some ms1)) = Ok rep1)
  (H2 : build_report (mkResponse (Some ms2)) = Ok rep2) :
  build_report (mkResponse (Some (ms1 ++ ms2)))
  = Ok (mkReport
          (if is_None (final_answer rep2) then final_answer rep1
           else final_answer rep2)
          (tool_calls_count rep1 + tool_calls_count rep2)
          (if existsb exposes_usage ms2 then token_usage rep2
           else token_usage rep1)
          (message_count rep1 + message_count rep2)).
Proof.
  destruct (build_report_fields _ _ H1) as (Hfa1 & Hcu1 & Hmc1).
  destruct (build_report_fields _ _ H2) as (Hfa2 & Hcu2 & Hmc2).
  cbn [get_messages messages_entry] in *.
  unfold build_report. cbn [get_messages messages_entry].
  rewrite count_usage_loop_app, Hcu1. cbn [bind fst snd].
  rewrite (count_usage_loop_shift _ _ _ _ _ Hcu2). cbn [bind fst snd].
  rewrite (usage_fold_exposed ms2 (token_usage rep1)).
  rewrite <- (count_usage_loop_usage _ _ _ _ _ Hcu2).
  rewrite rev_app_distr, final_answer_loop_app, <- Hfa1, <- Hfa2.
  rewrite length_app, Nat2Z.inj_add, <- Hmc1, <- Hmc2.
  f_equal. f_equal. lia.
Qed.

(** ** Each field reads its own attribute *)

Lemma final_answer_loop_ext (ms : list message) :
  forall ms' a,
    map content ms = map content ms' ->
    final_answer_loop ms a = final_answer_loop ms' a.
Proof.
  induction ms as [|m ms IH]; intros [|m' ms'] a H; try discriminate;
    [reflexivity|].
  simpl in H. inversion H as [[Hc Hrest]]. simpl. rewrite Hc.
  rewrite (IH ms' a Hrest). reflexivity.
Qed.

Lemma count_usage_loop_count_ext (ms : list message) :
  forall ms' c u u' c1 u1 c2 u2,
    map tool_calls ms = map tool_calls ms' ->
    count_usage_loop ms c u = Ok (c1, u1) ->
    count_usage_loop ms' c u' = Ok (c2, u2) ->
    c1 = c2.
Proof.
  induction ms as [|m ms IH]; intros [|m' ms'] c u u' c1 u1 c2 u2 H;
    try discriminate; simpl.
  - intros E1 E2. inversion E1. inversion E2. congruence.
  - simpl in H. inversion H as [[Ht Hrest]].
    unfold add_tool_calls. rewrite Ht.
    fold (add_tool_calls m' c).
    destruct (add_tool_calls m' c) as [c'|e]; simpl; [|discriminate].
    apply (IH ms' c' _ _ _ _ _ _ Hrest).
Qed.

Lemma usage_fold_ext (ms : list message) :
  forall ms' u,
    map usage_metadata ms = map usage_metadata ms' ->
    fold_left (fun acc m => set_token_usage m acc) ms u
    = fold_left (fun acc m => set_token_usage m acc) ms' u.
Proof.
  induction ms as [|m ms IH]; intros [|m' ms'] u H; try discriminate;
    [reflexivity|].
  simpl in H. inversion H as [[Hu Hrest]]. simpl.
  unfold set_token_usage at 2 4. rewrite Hu. apply IH. exact Hrest.
Qed.

(** X5. Each field of the report reads one attribute only: two runs whose
    messages agree on [content] have the same answer, two runs that agree
    on [tool_calls] have the same count, and two runs that agree on
    [usage_metadata] have the same usage, whatever the other attributes
    hold. *)
Theorem report_fields_separate (r r' : response) (rep rep' : report)
  (Hrep : build_report r = Ok rep) (Hrep' : build_report r' = Ok rep') :
  (map content (get_messages r) = map content (get_messages r') ->
   final_answer rep = final_answer rep')
  /\ (map tool_calls (get_messages r) = map tool_calls (get_messages r') ->
      tool_calls_count rep = tool_calls_count rep')
  /\ (map usage_metadata (get_messages r)
      = map usage_metadata (get_messages r') ->
      token_usage rep = token_usage rep').
Proof.
  destruct (build_report_fields _ _ Hrep) as (Hfa & Hcu & _).
  destruct (build_report_fields _ _ Hrep') as (Hfa' & Hcu' & _).
  split; [|split].
  - intros H. rewrite Hfa, Hfa'. apply final_answer_loop_ext.
    rewrite !map_rev, H. reflexivity.
  - intros H. apply (count_usage_loop_count_ext _ _ _ _ _ _ _ _ _ H Hcu Hcu').
  - intros H. rewrite (count_usage_loop_usage _ _ _ _ _ Hcu).
    rewrite (count_usage_loop_usage _ _ _ _ _ Hcu').
    apply usage_fold_ext. exact H.
Qed.

(** ** How the rendering ends *)

Lemma print_answer_printable (a : pyval) :
  answer_printable a = true -> snd (print_answer a) = Ok tt.
Proof.
  unfold answer_printable. intros H.
  destruct (truthy a) eqn:Ht.
  - destruct a; try discriminate H. apply print_answer_ok. exact I.
  - unfold print_answer. rewrite Ht. reflexivity.
Qed.

Lemma print_answer_unprintable (a : pyval) :
  answer_printable a = false ->
  print_answer a = ([], Raise AttributeError).
Proof.
  unfold answer_printable, print_answer.
  destruct (truthy a); [|discriminate].
  destruct a; try discriminate; reflexivity.
Qed.

Lemma print_token_usage_printable (py_repr : pyval -> pystr) (u : pyval) :
  usage_printable u = true -> snd (print_token_usage py_repr u) = Ok tt.
Proof.
  unfold usage_printable. intros H.
  destruct (truthy u) eqn:Ht.
  - destruct u; try discriminate H. apply print_token_usage_ok. exact I.
  - rewrite print_token_usage_falsy by exact Ht. reflexivity.
Qed.

Lemma print_token_usage_unprintable (py_repr : pyval -> pystr) (u : pyval) :
  usage_printable u = false ->
  print_token_usage py_repr u = ([], Raise AttributeError).
Proof.
  unfold usage_printable, print_token_usage.
  destruct (truthy u); [|discriminate].
  destruct u; try discriminate; reflexivity.
Qed.

Lemma render_report_answer_raises (py_repr : pyval -> pystr)
  (timestamp : pystr) (rep : report) (user_question model_name : pystr) :
  answer_printable (final_answer rep) = false ->
  render_report py_repr timestamp rep user_question model_name
  = (fst (print_header timestamp user_question model_name),
     Raise AttributeError).
Proof.
  intros Ha. unfold render_report.
  rewrite (io_bind_ok (print_header _ _ _) _ tt)
    by apply print_header_prints.
  rewrite (print_answer_unprintable _ Ha).
  unfold io_bind at 1. cbn [fst snd]. rewrite app_nil_r. reflexivity.
Qed.

Lemma render_report_usage_raises (py_repr : pyval -> pystr)
  (timestamp : pystr) (rep : report) (user_question model_name : pystr) :
  answer_printable (final_answer rep) = true ->
  usage_printable (token_usage rep) = false ->
  render_report py_repr timestamp rep user_question model_name
  = (fst (print_header timestamp user_question model_name)
     ++ fst (print_answer (final_answer rep))
     ++ [[10%N] ++ BOLD ++ BLUE ++ [128202%N] ++ lit " Metadata:" ++ RESET],
     Raise AttributeError).
Proof.
  intros Ha Hu.
  rewrite render_report_prints by (apply print_answer_printable; exact Ha).
  unfold print_metadata.
  rewrite (io_bind_ok (print _) _ tt) by reflexivity.
  rewrite (print_token_usage_unprintable py_repr _ Hu).
  unfold io_bind at 1 2. cbn [fst snd print]. reflexivity.
Qed.

Lemma render_report_ends (py_repr : pyval -> pystr)
  (timestamp : pystr) (rep : report) (user_question model_name : pystr) :
  answer_printable (final_answer rep) = true ->
  usage_printable (token_usage rep) = true ->
  snd (render_report py_repr timestamp rep user_question model_name) = Ok tt.
Proof.
  intros Ha Hu.
  rewrite render_report_prints by (apply print_answer_printable; exact Ha).
  cbn [snd]. rewrite print_metadata_prints; [reflexivity|].
  apply print_token_usage_printable. exact Hu.
Qed.


(** X7. What is on the stream when the rendering raises.  An answer that
    is truthy and not a [str] raises [AttributeError] at [split], after the
    eight prints of the header and nothing else.  A usage that is truthy
    and not a dict raises [AttributeError] at the first [get], after the
    header, the answer section and the metadata heading: no tool-call
    line, no message count and no closing rule are written. *)
Theorem rendering_stops_where_it_raises (py_repr : pyval -> pystr)
  (timestamp : pystr) (r : response) (rep : report)
  (user_question model_name : pystr) (Hrep : build_report r = Ok rep) :
  (answer_printable (final_answer rep) = false ->
   format_agent_response py_repr timestamp r user_question model_name
   = (fst (print_header timestamp user_question model_name),
      Raise AttributeError))
  /\ (answer_printable (final_answer rep) = true ->
      usage_printable (token_usage rep) = false ->
      format_agent_response py_repr timestamp r user_question model_name
      = (fst (print_header timestamp user_question model_name)
         ++ fst (print_answer (final_answer rep))
         ++ [[10%N] ++ BOLD ++ BLUE ++ [128202%N] ++ lit " Metadata:"
             ++ RESET],
         Raise AttributeError)).
Proof.
  rewrite (format_agent_response_ok _ _ _ _ _ _ Hrep). split.
  - apply render_report_answer_raises.
  - apply render_report_usage_raises.
Qed.

(** ** What the header inputs change *)

(** X8. The time stamp, the model name and the question reach the stream
    in one print each (the fourth, fifth and seventh): two calls on the
    same run end the same way, print the same number of texts, and agree on
    every other print. *)
Theorem header_inputs_touch_three_prints (py_repr : pyval -> pystr)
  (r : response) (timestamp timestamp' : pystr)
  (user_question user_question' model_name model_name' : pystr) :
  snd (format_agent_response py_repr timestamp r user_question model_name)
  = snd (format_agent_response py_repr timestamp' r
           user_question' model_name')
  /\ length (fst (format_agent_response py_repr timestamp r
                    user_question model_name))
     = length (fst (format_agent_response py_repr timestamp' r
                      user_question' model_name'))
  /\ (forall i, i <> 3%nat -> i <> 4%nat -> i <> 6%nat ->
        nth_error (fst (format_agent_response py_repr timestamp r
                          user_question model_name)) i
        = nth_error (fst (format_agent_response py_repr timestamp' r
                            user_question' model_name')) i).
Proof.
  destruct (build_report r) as [rep|e] eqn:Hrep.
  - rewrite !(format_agent_response_ok _ _ _ _ _ _ Hrep).
    unfold render_report.
    rewrite !(io_bind_ok (print_header _ _ _) _ tt)
      by apply print_header_prints.
    cbn [fst snd]. split; [reflexivity|]. split.
    + rewrite !length_app.
      destruct (print_header_prints timestamp user_question model_name)
        as (_ & -> & _).
      destruct (print_header_prints timestamp' user_question' model_name')
        as (_ & -> & _).
      reflexivity.
    + intros i H3 H4 H6.
      do 7 (destruct i as [|i]; [try reflexivity; congruence|]).
      reflexivity.
  - unfold format_agent_response, io_bind, lift. cbn [fst snd].
    rewrite Hrep. repeat split.
Qed.

(** ** Lines of the answer on the stream *)

Lemma split_lines_length (s : pystr) :
  length (split_lines s) = S (count_occ N.eq_dec s 10%N).
Proof.
  induction s as [|c rest IH]; [reflexivity|].
  simpl split_lines. simpl count_occ.
  destruct (split_lines_cons rest) as (l & ls & Hs). rewrite Hs in *.
  destruct (N.eqb_spec c 10) as [->|Hc].
  - destruct (N.eq_dec 10 10) as [_|Hn]; [|congruence].
    simpl. rewrite <- IH. reflexivity.
  - destruct (N.eq_dec c 10) as [He|_]; [congruence|].
    simpl. simpl in IH. exact IH.
Qed.

Lemma split_lines_line (t rest : pystr) :
  ~ In 10%N t ->
  split_lines (t ++ 10%N :: rest) = t :: split_lines rest.
Proof.
  induction t as [|c t IH]; simpl; intros Hnot; [reflexivity|].
  destruct (N.eqb_spec c 10) as [->|_]; [tauto|].
  rewrite IH by tauto. reflexivity.
Qed.

(** Texts without line feed are the lines of the stream they are printed
    to, followed by the empty piece after the last line feed. *)
Lemma stdout_lines_of_lines (out : list pystr) :
  Forall (fun text => ~ In 10%N text) out ->
  stdout_lines out = out ++ [[]].
Proof.
  unfold stdout_lines, stdout_text.
  induction 1 as [|t out Ht _ IH]; [reflexivity|].
  simpl. rewrite <- app_assoc. simpl.
  rewrite split_lines_line by exact Ht. rewrite IH. reflexivity.
Qed.

Lemma no_feed_grey_indented (core : pystr) :
  ~ In 10%N core -> ~ In 10%N (grey_indented core).
Proof.
  intros Hcore Hin. unfold grey_indented in Hin.
  rewrite app_assoc in Hin.
  apply in_app_or in Hin. destruct Hin as [Hin|Hin].
  - exact (no_feed_DARK_GREY_indent Hin).
  - apply in_app_or in Hin. destruct Hin as [Hin|Hin]; [auto|].
    exact (no_feed_RESET Hin).
Qed.

Lemma shown_as_no_feed (line text : pystr) :
  shown_as line text -> ~ In 10%N line -> ~ In 10%N text.
Proof.
  intros [[_ ->]|(ws1 & core & ws2 & f & la & -> & _ & _ & _ & _ & _ & _ & ->)]
         Hline.
  - simpl. tauto.
  - apply no_feed_grey_indented. intros Hin. apply Hline.
    apply in_or_app. right. apply in_or_app. left. exact Hin.
Qed.

Lemma Forall2_shown_no_feed (lines printed : list pystr) :
  Forall2 shown_as lines printed ->
  Forall (fun line => ~ In 10%N line) lines ->
  Forall (fun text => ~ In 10%N text) printed.
Proof.
  induction 1 as [|line text lines printed Hs _ IH]; intros Hall;
    [constructor|].
  inversion Hall; subst. constructor; [|auto].
  apply (shown_as_no_feed line text); assumption.
Qed.

(** X9. A text answer is printed with one [print] per line: the section
    has one text more than the answer has line feeds, no text holds a line
    feed, and so the lines these prints put on the stream are exactly the
    printed texts. *)
Theorem answer_prints_one_per_line (s : pystr) (Hne : s <> []) :
  length (fst (print_answer (PyStr s))) = S (count_occ N.eq_dec s 10%N)
  /\ Forall (fun text => ~ In 10%N text) (fst (print_answer (PyStr s)))
  /\ stdout_lines (fst (print_answer (PyStr s)))
     = fst (print_answer (PyStr s)) ++ [[]].
Proof.
  destruct (print_answer_text s Hne) as (printed & Hp & Hshown).
  rewrite Hp. cbn [fst].
  assert (Hfree : Forall (fun text => ~ In 10%N text) printed).
  { apply (Forall2_shown_no_feed _ _ Hshown). apply split_lines_no_feed. }
  split; [|split].
  - rewrite <- (Forall2_length Hshown). apply split_lines_length.
  - exact Hfree.
  - apply stdout_lines_of_lines. exact Hfree.
Qed.

(** ** Whitespace around a line of the answer *)

Lemma lstrip_space_prefix (ws s : pystr) :
  all_space ws -> lstrip (ws ++ s) = lstrip s.
Proof.
  induction 1 as [|c ws Hc _ IH]; simpl; [reflexivity|].
  rewrite Hc. exact IH.
Qed.

Lemma lstrip_all_space (ws : pystr) : all_space ws -> lstrip ws = [].
Proof.
  intros H. rewrite <- (app_nil_r ws). rewrite lstrip_space_prefix by exact H.
  reflexivity.
Qed.

Lemma lstrip_app (l t : pystr) :
  lstrip (l ++ t)
  = match lstrip l with
    | [] => lstrip t
    | _ :: _ => lstrip l ++ t
    end.
Proof.
  induction l as [|c l IH]; simpl.
  - destruct (lstrip t); reflexivity.
  - destruct (isspace c); [exact IH|reflexivity].
Qed.

Lemma rstrip_space_suffix (s ws : pystr) :
  all_space ws -> rstrip (s ++ ws) = rstrip s.
Proof.
  intros H. unfold rstrip. rewrite rev_app_distr.
  rewrite lstrip_space_prefix by (apply Forall_rev; exact H).
  reflexivity.
Qed.

Lemma strip_padding (ws1 line ws2 : pystr) :
  all_space ws1 -> all_space ws2 ->
  strip (ws1 ++ line ++ ws2) = strip line.
Proof.
  intros H1 H2. unfold strip.
  rewrite lstrip_space_prefix by exact H1.
  rewrite lstrip_app.
  destruct (lstrip line) as [|c core] eqn:Hl.
  - rewrite lstrip_all_space by exact H2. reflexivity.
  - apply rstrip_space_suffix. exact H2.
Qed.

(** X10. Whitespace around a line of the answer never reaches the stream:
    a line printed with any whitespace added before and after it gives the
    same [print] as the line itself, so the indentation a model puts in
    its answer is lost. *)
Theorem answer_line_padding_ignored (ws1 line ws2 : pystr)
  (H1 : all_space ws1) (H2 : all_space ws2) :
  strip (ws1 ++ line ++ ws2) = strip line
  /\ print_answer_line (ws1 ++ line ++ ws2) = print_answer_line line.
Proof.
  assert (Hs : strip (ws1 ++ line ++ ws2) = strip line)
    by (apply strip_padding; assumption).
  split; [exact Hs|].
  unfold print_answer_line. rewrite Hs. reflexivity.
Qed.

(** ** The closing rule *)

Lemma last_app_two {A} (l : list A) (a b d : A) :
  last (l ++ [a; b]) d = b.
Proof.
  change [a; b] with ([a] ++ [b]). rewrite app_assoc. apply last_last.
Qed.

Lemma render_report_last_print (py_repr : pyval -> pystr)
  (timestamp : pystr) (rep : report) (user_question model_name : pystr) :
  answer_printable (final_answer rep) = true ->
  usage_printable (token_usage rep) = true ->
  last (fst (render_report py_repr timestamp rep user_question model_name)) []
  = closing_rule.
Proof.
  intros Ha Hu.
  rewrite render_report_prints by (apply print_answer_printable; exact Ha).
  rewrite print_metadata_prints
    by (apply print_token_usage_printable; exact Hu).
  cbn [fst]. rewrite !app_assoc. apply last_app_two.
Qed.

Lemma last_header_print (timestamp user_question model_name : pystr) :
  last (fst (print_header timestamp user_question model_name)) []
  = [10%N] ++ BOLD ++ BLUE ++ [128172%N] ++ lit " Answer:" ++ RESET.
Proof. reflexivity. Qed.


(** * The further properties at sample runs *)

Lemma no_answer_iff_no_content_witness :
  build_report run_answer_then_tool
  = Ok (mkReport (PyStr (lit "42")) 1 PyNone 2)
  /\ PyStr (lit "42") <> PyNone
  /\ truthy (final_answer (mkReport (PyStr (lit "42")) 1 PyNone 2)) = true.
Proof.
  assert (Hne : PyStr (lit "42") <> PyNone) by discriminate.
  split; [reflexivity|]. split; [exact Hne|].
  destruct (no_answer_iff_no_content run_answer_then_tool
              (mkReport (PyStr (lit "42")) 1 PyNone 2) eq_refl)
    as (_ & Hsome & _).
  destruct (Hsome Hne) as (Ht & _). exact Ht.
Defined.

Lemma tool_calls_count_zero_iff_witness :
  build_report run_two_usages
  = Ok (mkReport (PyStr (lit "done")) 0 usage_5_3_8 2)
  /\ Forall (fun m => has_tool_calls m = false) (get_messages run_two_usages)
  /\ fst (print_tool_calls
            (tool_calls_count (mkReport (PyStr (lit "done")) 0 usage_5_3_8 2)))
     = [].
Proof.
  assert (Hall : Forall (fun m => has_tool_calls m = false)
                        (get_messages run_two_usages)).
  { repeat constructor. }
  split; [reflexivity|]. split; [exact Hall|].
  destruct (tool_calls_count_zero_iff run_two_usages
              (mkReport (PyStr (lit "done")) 0 usage_5_3_8 2) eq_refl)
    as (_ & _ & Hline).
  apply Hline. exact Hall.
Defined.

Lemma build_report_raises_iff_witness :
  Exists (fun m => tool_calls_unsized m = true)
         (get_messages run_unsized_tool_calls)
  /\ exists e, build_report run_unsized_tool_calls = Raise e.
Proof.
  assert (Hex : Exists (fun m => tool_calls_unsized m = true)
                       (get_messages run_unsized_tool_calls)).
  { apply Exists_cons_tl. apply Exists_cons_hd. reflexivity. }
  split; [exact Hex|].
  destruct (build_report_raises_iff no_repr sample_timestamp
              run_unsized_tool_calls (lit "q") sample_model) as (Hiff & _).
  apply Hiff. exact Hex.
Defined.

Lemma report_of_concatenation_witness :
  build_report (mkResponse (Some [msg_tool_call; msg_thinking]))
  = Ok (mkReport (PyStr (lit "thinking...")) 1 usage_5_0_5 2)
  /\ build_report (mkResponse (Some [msg_tool_call]))
     = Ok (mkReport PyNone 1 PyNone 1)
  /\ build_report (mkResponse (Some ([msg_tool_call; msg_thinking]
                                     ++ [msg_tool_call])))
     = Ok (mkReport (PyStr (lit "thinking...")) 2 usage_5_0_5 3).
Proof.
  split; [reflexivity|]. split; [reflexivity|].
  exact (report_of_concatenation [msg_tool_call; msg_thinking] [msg_tool_call]
           (mkReport (PyStr (lit "thinking...")) 1 usage_5_0_5 2)
           (mkReport PyNone 1 PyNone 1) eq_refl eq_refl).
Defined.

Lemma report_fields_separate_witness :
  build_report run_tool_then_answer
  = Ok (mkReport (PyStr (lit "42")) 1 PyNone 2)
  /\ build_report run_answer_only
     = Ok (mkReport (PyStr (lit "42")) 0 usage_5_0_5 2)
  /\ map content (get_messages run_tool_then_answer)
     = map content (get_messages run_answer_only)
  /\ final_answer (mkReport (PyStr (lit "42")) 1 PyNone 2)
     = final_answer (mkReport (PyStr (lit "42")) 0 usage_5_0_5 2).
Proof.
  split; [reflexivity|]. split; [reflexivity|]. split; [reflexivity|].
  destruct (report_fields_separate run_tool_then_answer run_answer_only
              (mkReport (PyStr (lit "42")) 1 PyNone 2)
              (mkReport (PyStr (lit "42")) 0 usage_5_0_5 2)
              eq_refl eq_refl) as (Hanswer & _).
  apply Hanswer. reflexivity.
Defined.


Lemma rendering_stops_where_it_raises_witness :
  build_report run_list_content
  = Ok (mkReport (PyList [PyStr (lit "hi")]) 0 PyNone 1)
  /\ answer_printable (PyList [PyStr (lit "hi")]) = false
  /\ format_agent_response no_repr sample_timestamp run_list_content
       (lit "q") sample_model
     = (fst (print_header sample_timestamp (lit "q") sample_model),
        Raise AttributeError).
Proof.
  split; [reflexivity|]. split; [reflexivity|].
  destruct (rendering_stops_where_it_raises no_repr sample_timestamp
              run_list_content
              (mkReport (PyList [PyStr (lit "hi")]) 0 PyNone 1)
              (lit "q") sample_model eq_refl) as (Hanswer & _).
  apply Hanswer. reflexivity.
Defined.

Lemma header_inputs_touch_three_prints_witness :
  8%nat <> 3%nat /\ 8%nat <> 4%nat /\ 8%nat <> 6%nat
  /\ nth_error (fst (format_agent_response no_repr sample_timestamp
                       run_tool_then_answer (lit "q") sample_model)) 8
     = nth_error (fst (format_agent_response no_repr sample_timestamp_later
                         run_tool_then_answer question_two_lines
                         (lit "other"))) 8.
Proof.
  assert (H3 : 8%nat <> 3%nat) by discriminate.
  assert (H4 : 8%nat <> 4%nat) by discriminate.
  assert (H6 : 8%nat <> 6%nat) by discriminate.
  repeat (split; [assumption|]).
  destruct (header_inputs_touch_three_prints no_repr run_tool_then_answer
              sample_timestamp sample_timestamp_later
              (lit "q") question_two_lines sample_model (lit "other"))
    as (_ & _ & Hsame).
  exact (Hsame 8%nat H3 H4 H6).
Defined.

Lemma answer_prints_one_per_line_witness :
  answer_three_lines <> []
  /\ length (fst (print_answer (PyStr answer_three_lines))) = 3%nat.
Proof.
  assert (Hne : answer_three_lines <> []) by discriminate.
  split; [exact Hne|].
  destruct (answer_prints_one_per_line answer_three_lines Hne) as (Hlen & _).
  rewrite Hlen. reflexivity.
Defined.

Lemma answer_line_padding_ignored_witness :
  all_space (lit "  ") /\ all_space [9%N]
  /\ print_answer_line (lit "  " ++ lit "x = 1" ++ [9%N])
     = print_answer_line (lit "x = 1").
Proof.
  assert (H1 : all_space (lit "  ")) by (repeat constructor).
  assert (H2 : all_space [9%N]) by (repeat constructor).
  split; [exact H1|]. split; [exact H2|].
  destruct (answer_line_padding_ignored (lit "  ") (lit "x = 1") [9%N] H1 H2)
    as (_ & Hprint).
  exact Hprint.
Defined.

